(** * weekly_issue: the news processing pipeline

    A shallow embedding of the pipeline services of the repository
    ([app/domain/service/*.py]) and the properties of its stages:
    keyword filter, similarity deduplication, classification with
    fallback, summarization with fallback, and the orchestrator. *)

From Stdlib Require Import ZArith QArith String Ascii Lia.
From stdpp Require Import base option list.

Close Scope Q_scope.
Open Scope nat_scope.

(** ** Python strings

    A Python [str] is a sequence of Unicode code points: [len], slicing and
    the substring test all count code points, not bytes.  String constants
    of the source are written as UTF-8 literals and decoded once. *)

Definition codepoint := N.
Definition pystr := list codepoint.

Module Utf8.

Definition byte_of (a : ascii) : N := N_of_ascii a.

Fixpoint bytes_of (s : string) : list N :=
  match s with
  | EmptyString => []
  | String a s' => byte_of a :: bytes_of s'
  end.

(** Continuation bytes carry six payload bits. *)
Definition cont (b : N) : N := (b - 128)%N.

Fixpoint decode (bs : list N) : pystr :=
  match bs with
  | [] => []
  | b :: rest =>
      if (b <? 128)%N then b :: decode rest
      else if (b <? 224)%N then
        match rest with
        | c1 :: rest1 => ((b - 192) * 64 + cont c1)%N :: decode rest1
        | _ => []
        end
      else if (b <? 240)%N then
        match rest with
        | c1 :: c2 :: rest2 =>
            ((b - 224) * 4096 + cont c1 * 64 + cont c2)%N :: decode rest2
        | _ => []
        end
      else
        match rest with
        | c1 :: c2 :: c3 :: rest3 =>
            ((b - 240) * 262144 + cont c1 * 4096 + cont c2 * 64 + cont c3)%N
              :: decode rest3
        | _ => []
        end
  end.

End Utf8.

(** [py "text"] is the Python string written "text" in the source. *)
Definition py (s : string) : pystr := Utf8.decode (Utf8.bytes_of s).

Module Str.

(** [bool(s)]: a string is truthy when it is not empty. *)
Definition truthy (s : pystr) : bool :=
  match s with [] => false | _ :: _ => true end.

Fixpoint eqb (s t : pystr) : bool :=
  match s, t with
  | [], [] => true
  | a :: s', b :: t' => (a =? b)%N && eqb s' t'
  | _, _ => false
  end.

Fixpoint startswith (p s : pystr) : bool :=
  match p, s with
  | [], _ => true
  | a :: p', b :: s' => (a =? b)%N && startswith p' s'
  | _ :: _, [] => false
  end.

(** [needle in hay]: substring containment. *)
Fixpoint contains (needle hay : pystr) : bool :=
  startswith needle hay
  || match hay with
     | [] => false
     | _ :: hay' => contains needle hay'
     end.

(** The code points for which [str.isspace] holds. *)
Definition isspace (c : codepoint) : bool :=
  ((9 <=? c) && (c <=? 13) || (28 <=? c) && (c <=? 32)
   || (c =? 133) || (c =? 160) || (c =? 5760)
   || (8192 <=? c) && (c <=? 8202)
   || (c =? 8232) || (c =? 8233) || (c =? 8239) || (c =? 8287)
   || (c =? 12288))%N.

Fixpoint lstrip (s : pystr) : pystr :=
  match s with
  | c :: s' => if isspace c then lstrip s' else s
  | [] => []
  end.

Definition rstrip (s : pystr) : pystr := rev (lstrip (rev s)).

(** [s.strip()] *)
Definition strip (s : pystr) : pystr := rstrip (lstrip s).

(** [s.split('+')[0]]: the part before the first plus sign. *)
Fixpoint before_plus (s : pystr) : pystr :=
  match s with
  | [] => []
  | c :: s' => if (c =? 43)%N then [] else c :: before_plus s'
  end.

(** [s[:n]] for a non-negative [n]. *)
Definition slice_to (n : nat) (s : pystr) : pystr := take n s.

(** The lower-casing of ASCII letters; every other code point is kept.
    It coincides with [str.lower] on ASCII and on caseless scripts such
    as Hangul. *)
Definition ascii_lower_char (c : codepoint) : codepoint :=
  if ((65 <=? c) && (c <=? 90))%N then (c + 32)%N else c.

Definition ascii_lower (s : pystr) : pystr := map ascii_lower_char s.

End Str.

(** ** Python floats

    A Python [float] is modelled by the rational number it denotes, so that
    the comparison of floats is the comparison of rationals.  The two float
    literals of the source denote these numbers. *)

(** [0.6] *)
Definition float_0_6 : Q := (5404319552844595 # 9007199254740992)%Q.

(** [0.7] *)
Definition float_0_7 : Q := (3152519739159347 # 4503599627370496)%Q.

(** ** Records of the pipeline

    The dictionaries passed between the stages have a fixed set of string
    keys.  A field is [None] when the key is absent (what [dict.get] turns
    into its default). *)

Module Classification.

(** The value stored under ["classification"]: both keys are always
    present, a value is [None] when the classifier's entry had no such
    key ([prediction.get] returned [None]). *)
Record t := mk { label : option pystr; confidence : option Q }.

End Classification.

Record news := mkNews {
  company : option pystr;
  title : option pystr;
  description : option pystr;
  link : option pystr;
  pubDate : option pystr;
  category : option pystr;
  matched_keywords : option (list pystr);
  classification : option Classification.t
}.

(** [news["matched_keywords"] = kws] *)
Definition set_matched_keywords (kws : list pystr) (n : news) : news :=
  mkNews (company n) (title n) (description n) (link n) (pubDate n)
         (category n) (Some kws) (classification n).

(** [item["classification"] = c] *)
Definition set_classification (c : Classification.t) (n : news) : news :=
  mkNews (company n) (title n) (description n) (link n) (pubDate n)
         (category n) (matched_keywords n) (Some c).

(** [{}] *)
Definition empty_news : news :=
  mkNews None None None None None None None None.

#[global] Instance news_inhabited : Inhabited news := populate empty_news.

(** [d.get(key, "")] on a string field. *)
Definition get_str (field : option pystr) : pystr := default [] field.

(** The summary type written under ["summary_type"]. *)
Inductive summary_type_t :=
| ai_generated
| fallback_empty_response
| fallback_api_error (status_code : Z)
| fallback_network_error
| fallback_unknown_error.

Module Result.

(** One entry of the final result list. *)
Record t := mk {
  id : pystr;
  corp : option pystr;
  summary : pystr;
  original_title : option pystr;
  confidence : option Q;
  matched_keywords : list pystr;
  news_url : pystr;
  published_date : pystr;
  category : pystr;
  sentiment : pystr;
  summary_type : summary_type_t
}.

End Result.

Inductive status_t := success | error.

(** The dictionary returned by [process_news_pipeline].  The keys
    ["after_deduplication"] and ["companies_processed"] are not written on
    every return path. *)
Record pipeline_result := mkPipelineResult {
  status : status_t;
  message : pystr;
  total_collected : nat;
  after_keyword_filter : nat;
  after_deduplication : option nat;
  after_classification : nat;
  final_summaries : nat;
  companies_processed : option (list pystr);
  results : list Result.t
}.

(** ** The object store

    The stages pass references to dictionaries: the keyword filter writes
    into the dictionaries it receives and hands the same objects on, the
    classifier copies them.  The store maps a reference to the current
    contents of its dictionary; a new dictionary gets the next reference. *)

Abbreviation loc := nat (only parsing).
Abbreviation heap := (list news) (only parsing).

Definition alloc (n : news) (h : heap) : heap * loc := (h ++ [n], length h).

(** All references of a list denote objects of the store. *)
Definition live (h : heap) (l : list loc) : Prop := Forall (fun r => r < length h) l.

(** ** What lies outside the repository *)

Record datetime := mkDatetime {
  year : Z; month : Z; day : Z; hour : Z; minute : Z; second : Z
}.

(** Library functions used by the services. *)
Record runtime := mkRuntime {
  (** [str.lower] *)
  lower : pystr -> pystr;
  (** [fuzz.token_set_ratio], a score from 0 to 100 *)
  token_set_ratio : pystr -> pystr -> Z;
  (** [datetime.strptime(s, "%a, %d %b %Y %H:%M:%S")]; [None] when it raises *)
  strptime : pystr -> option datetime;
  (** [dt.strftime("%Y%m%d")] *)
  strftime : datetime -> pystr;
  (** [datetime.now()] *)
  now : datetime;
  (** [str(uuid.uuid4())], by the number of the call *)
  uuid4 : nat -> pystr
}.

(** One element of the ["items"] array of the news search response. *)
Record raw_item := mkRawItem {
  r_title : option pystr;
  r_description : option pystr;
  r_link : option pystr;
  r_pubDate : option pystr
}.

(** What the news search request of [fetch_news_for_company] comes to:
    the decoded items, or any failure (status 401, another error status,
    a network error, an undecodable body). *)
Inductive naver_outcome :=
| NaverItems (items : list raw_item)
| NaverFailure.

(** One element of the ["result"] array of the classifier. *)
Record prediction := mkPrediction {
  p_label : option pystr;
  p_confidence : option Q
}.

(** What the [try] block of [classify_news] comes to: a response with its
    status code and decoded ["result"] array, or one of the exceptions the
    method distinguishes; [OtherException] includes a body of a 200
    response that cannot be decoded or processed. *)
Inductive classifier_outcome :=
| ClassifierResponse (status_code : Z) (result : list prediction)
| ConnectError
| TimeoutException
| RequestError
| OtherException.

(** What the [try] block of one iteration of [summarize_news] comes to;
    [summary_text] is [None] when the body has no ["summary"]. *)
Inductive summarizer_outcome :=
| SummarizerResponse (status_code : Z) (summary_text : option pystr)
| SummarizerRequestError
| SummarizerException.

(** The three external services. *)
Record network := mkNetwork {
  naver_get : pystr -> naver_outcome;
  classifier_post : list pystr -> classifier_outcome;
  summarizer_post : nat -> pystr -> pystr -> summarizer_outcome
}.

(** ** Keyword filter ([keyword_filter_service.py]) *)

Record KeywordFilterService := mkKeywordFilterService {
  important_keywords : list pystr
}.

Section KeywordFilter.

Variable rt : runtime.
Variable self : KeywordFilterService.

(** The loop over the lexicon: the flag [has_keyword] and the list
    [matched_keywords] after all keywords were tried on the lower-cased
    title. *)
Definition match_keywords (title_lower : pystr) : bool * list pystr :=
  fold_left
    (fun st keyword =>
       if Str.contains (lower rt keyword) title_lower
       then (true, st.2 ++ [keyword])
       else st)
    (important_keywords self) (false, []).

(** One iteration of the loop over the news: a match writes the key
    ["matched_keywords"] into the dictionary itself and appends the same
    object to [filtered_news]. *)
Definition filter_step (st : list loc * heap) (news_ref : loc) : list loc * heap :=
  let '(filtered_news, h) := st in
  let title_lower := lower rt (get_str (title (h !!! news_ref))) in
  let '(has_keyword, matched) := match_keywords title_lower in
  if has_keyword
  then (filtered_news ++ [news_ref],
        <[news_ref := set_matched_keywords matched (h !!! news_ref)]> h)
  else (filtered_news, h).

Definition filter_by_keywords (news_list : list loc) (h : heap) : list loc * heap :=
  fold_left filter_step news_list ([], h).

End KeywordFilter.

Definition default_keywords : list pystr := [
  py "가상자산"; py "감사보고서"; py "강화"; py "강세"; py "개최"; py "거래"; py "거짓";
  py "게임 매출"; py "결과"; py "결의"; py "결정"; py "계약"; py "계약 체결"; py "공개";
  py "공매도"; py "공시"; py "기술"; py "기록"; py "규탄"; py "갱신"; py "기각"; py "급등";
  py "누적"; py "단행"; py "달성"; py "대비"; py "대표이사"; py "돌파"; py "론칭"; py "매입";
  py "매출"; py "매출액"; py "매수세"; py "미공개"; py "메타버스"; py "발행"; py "베타";
  py "변동"; py "부진"; py "북미"; py "분기"; py "법적 대응"; py "법적"; py "블록체인";
  py "비용"; py "사업"; py "사외이사"; py "사전"; py "사전 예약"; py "사전예약"; py "상장";
  py "상장폐지"; py "상승 마감"; py "상향"; py "상향 조정"; py "선임"; py "선정"; py "설립";
  py "소각"; py "소송"; py "소집"; py "수혜"; py "순손실"; py "신규"; py "신작"; py "실적";
  py "실적발표"; py "업데이트"; py "영업손실"; py "영업이익"; py "예약"; py "예정"; py "예고";
  py "오픈"; py "온라인"; py "온보딩"; py "완료"; py "위믹스"; py "유상증자"; py "유지";
  py "이상"; py "인건비"; py "인수"; py "자기주식"; py "자사주"; py "자본"; py "자본 잠식";
  py "적자전환"; py "전략"; py "전환"; py "장중"; py "잠식"; py "정기주주총회"; py "정식";
  py "제출"; py "조정"; py "종가"; py "주당"; py "주식회사"; py "주요"; py "주주총회";
  py "주총"; py "중국"; py "증가"; py "지급"; py "지분"; py "지속"; py "지속가능경영보고서";
  py "참가"; py "참여"; py "처분"; py "체결"; py "최대"; py "최초"; py "추진"; py "출시";
  py "취득"; py "테스트"; py "투자"; py "투자 단행"; py "파트너십"; py "파트너십 체결"; py "판호";
  py "퍼블리싱"; py "퍼블리싱 계약"; py "한한령"; py "항소"; py "항고"; py "하향"; py "하락";
  py "합병"; py "현금배당"; py "협력"; py "협약"; py "협약 체결"; py "확대"; py "확장";
  py "획득"; py "흑자전환"; py "흥행"; py "ESG"; py "%"; py "DLC"; py "1위";
  py "ai"; py "cbt"; py "ip"; py "mou"; py "nft"
].

(** The singleton [keyword_filter_service]. *)
Definition keyword_filter_service : KeywordFilterService :=
  mkKeywordFilterService default_keywords.

(** ** Similarity deduplication ([NewsPipelineService.remove_similar_titles]) *)

Section Deduplication.

Variable rt : runtime.

Definition similarity_threshold : Z := 85.

(** The inner loop over the news kept so far, left at the first title
    whose score reaches the threshold. *)
Fixpoint is_similar (h : heap) (current_title : pystr) (filtered_news : list loc) : bool :=
  match filtered_news with
  | [] => false
  | existing_news :: rest =>
      let existing_title := Str.strip (get_str (title (h !!! existing_news))) in
      let similarity_score := token_set_ratio rt current_title existing_title in
      if (similarity_threshold <=? similarity_score)%Z then true
      else is_similar h current_title rest
  end.

(** One iteration of the outer loop. *)
Definition dedup_step (h : heap) (filtered_news : list loc) (current_news : loc) : list loc :=
  let current_title := Str.strip (get_str (title (h !!! current_news))) in
  if negb (Str.truthy current_title) then filtered_news
  else if is_similar h current_title filtered_news then filtered_news
  else filtered_news ++ [current_news].

Definition remove_similar_titles (news_list : list loc) (h : heap) : list loc :=
  match news_list with
  | [] => news_list
  | _ :: _ => fold_left (dedup_step h) news_list []
  end.

End Deduplication.

(** ** Classifier ([classifier_service.py]) *)

Section Classifier.

Variable net : network.

Definition fallback_classification : Classification.t :=
  Classification.mk (Some (py "important")) (Some float_0_7).

(** One iteration of the fallback loop: a copy of the dictionary gets the
    default classification and is appended. *)
Definition fallback_step (st : list loc * heap) (news_ref : loc) : list loc * heap :=
  let '(classified_news, h) := st in
  let '(h', fallback_item) :=
    alloc (set_classification fallback_classification (h !!! news_ref)) h in
  (classified_news ++ [fallback_item], h').

Definition _create_fallback_results (news_list : list loc) (h : heap) : list loc * heap :=
  fold_left fallback_step news_list ([], h).

(** One iteration of the loop over [enumerate(news_list)] on a 200
    response: the entry at the same index annotates a copy, which is
    appended when the confidence (0 when the entry has none) reaches 0.6. *)
Definition classify_step (batch_results : list prediction)
    (st : list loc * heap) (entry : nat * loc) : list loc * heap :=
  let '(classified_news, h) := st in
  let '(i, news_ref) := entry in
  match batch_results !! i with
  | Some p =>
      let '(h', classified_item) :=
        alloc (set_classification
                 (Classification.mk (p_label p) (p_confidence p))
                 (h !!! news_ref)) h in
      let confidence := default 0%Q (p_confidence p) in
      if Qle_bool float_0_6 confidence
      then (classified_news ++ [classified_item], h')
      else (classified_news, h')
  | None => (classified_news, h)
  end.

Fixpoint enumerate_from {A} (start : nat) (l : list A) : list (nat * A) :=
  match l with
  | [] => []
  | x :: l' => (start, x) :: enumerate_from (S start) l'
  end.

(** [enumerate(l)] *)
Definition enumerate {A} (l : list A) : list (nat * A) := enumerate_from 0 l.

(** The [else] branch of the status test runs the same loop as
    [_create_fallback_results]. *)
Definition classify_news (news_list : list loc) (h : heap) : list loc * heap :=
  match news_list with
  | [] => ([], h)
  | _ :: _ =>
      let titles := map (fun r => get_str (title (h !!! r))) news_list in
      match classifier_post net titles with
      | ClassifierResponse status_code batch_results =>
          if (status_code =? 200)%Z
          then fold_left (classify_step batch_results) (enumerate news_list) ([], h)
          else fold_left fallback_step news_list ([], h)
      | ConnectError => _create_fallback_results news_list h
      | TimeoutException => _create_fallback_results news_list h
      | RequestError => _create_fallback_results news_list h
      | OtherException => _create_fallback_results news_list h
      end
  end.

End Classifier.

(** ** Summarizer ([summary_service.py]) *)

Section Summary.

Variable rt : runtime.
Variable net : network.

Definition _generate_fallback_summary (n : news) : pystr :=
  let title_s := get_str (title n) in
  let description_s := get_str (description n) in
  let company_s := get_str (company n) in
  if Str.truthy title_s && Str.truthy description_s then
    let base_summary := company_s ++ py " 관련 뉴스: " ++ Str.slice_to 30 title_s in
    let base_summary :=
      if (length base_summary <? 80) && Str.truthy description_s then
        let remaining_chars := (100 - Z.of_nat (length base_summary) - 5)%Z in
        if (10 <? remaining_chars)%Z
        then base_summary ++ py " - "
               ++ Str.slice_to (Z.to_nat remaining_chars) description_s ++ py "..."
        else base_summary
      else base_summary in
    Str.slice_to 100 base_summary
  else if Str.truthy title_s then
    company_s ++ py " 관련 뉴스: " ++ Str.slice_to 70 title_s
  else
    company_s ++ py " 관련 뉴스가 발표되었습니다.".

Definition _format_published_date (pub_date : pystr) : pystr :=
  if negb (Str.truthy pub_date) then []
  else
    match strptime rt (Str.strip (Str.before_plus pub_date)) with
    | Some dt => strftime rt dt
    | None => strftime rt (now rt)
    end.

(** [news.get("classification", {}).get("confidence", 0)] *)
Definition confidence_of (n : news) : option Q :=
  match classification n with
  | Some c => Classification.confidence c
  | None => Some 0%Q
  end.

(** The dictionary both paths build, for the [i]-th item, with its
    summary text and summary type. *)
Definition make_result (i : nat) (n : news) (summary_text : pystr)
    (ty : summary_type_t) : Result.t :=
  Result.mk (uuid4 rt i) (company n) summary_text (title n)
            (confidence_of n) (default [] (matched_keywords n))
            (get_str (link n)) (_format_published_date (get_str (pubDate n)))
            (default (py "일반") (category n)) (py "neutral") ty.

(** [_create_fallback_result(news)] followed by the assignment of
    ["summary_type"] every caller makes. *)
Definition _create_fallback_result (i : nat) (n : news) (ty : summary_type_t) : Result.t :=
  make_result i n (_generate_fallback_summary n) ty.

(** The body of the loop of [summarize_news] for the item at index [i]. *)
Definition summarize_item (i : nat) (n : news) : Result.t :=
  match summarizer_post net i (get_str (title n)) (get_str (description n)) with
  | SummarizerResponse status_code body =>
      if (status_code =? 200)%Z then
        let summary_text := default [] body in
        if negb (Str.truthy summary_text) || Str.eqb (Str.strip summary_text) []
        then make_result i n (_generate_fallback_summary n) fallback_empty_response
        else make_result i n summary_text ai_generated
      else _create_fallback_result i n (fallback_api_error status_code)
  | SummarizerRequestError => _create_fallback_result i n fallback_network_error
  | SummarizerException => _create_fallback_result i n fallback_unknown_error
  end.

Definition summarize_step (st : list Result.t * heap) (entry : nat * loc)
    : list Result.t * heap :=
  let '(summarized_results, h) := st in
  let '(i, news_ref) := entry in
  (summarized_results ++ [summarize_item i (h !!! news_ref)], h).

Definition summarize_news (news_list : list loc) (h : heap) : list Result.t * heap :=
  fold_left summarize_step (enumerate news_list) ([], h).

End Summary.

(** ** News source adapter ([naver_news_service.py]) *)

Section Naver.

Variable net : network.

(** [re.sub('<.*?>', '', text)]: [pending] holds, in reverse, the text
    since an opening bracket that no closing bracket has answered yet; a
    closing bracket drops it, a line break (which the dot does not match)
    or the end of the text gives it back. *)
Fixpoint clean_from (pending : option pystr) (text : pystr) : pystr :=
  match text with
  | [] => match pending with Some p => rev p | None => [] end
  | c :: text' =>
      match pending with
      | None =>
          if (c =? 60)%N then clean_from (Some [c]) text'
          else c :: clean_from None text'
      | Some p =>
          if (c =? 62)%N then clean_from None text'
          else if (c =? 10)%N then rev p ++ c :: clean_from None text'
          else clean_from (Some (c :: p)) text'
      end
  end.

Definition _clean_html_tags (text : pystr) : pystr := clean_from None text.

Definition process_item (company_name : pystr) (st : list loc * heap) (item : raw_item)
    : list loc * heap :=
  let '(processed_news, h) := st in
  let '(h', r) :=
    alloc (mkNews (Some company_name)
                  (Some (_clean_html_tags (get_str (r_title item))))
                  (Some (_clean_html_tags (get_str (r_description item))))
                  (Some (get_str (r_link item)))
                  (Some (get_str (r_pubDate item)))
                  None None None) h in
  (processed_news ++ [r], h').

(** Every failure is caught inside and answered with the empty list. *)
Definition fetch_news_for_company (company_name : pystr) (h : heap) : list loc * heap :=
  match naver_get net company_name with
  | NaverItems items => fold_left (process_item company_name) items ([], h)
  | NaverFailure => ([], h)
  end.

End Naver.

(** ** Orchestrator ([news_pipeline_service.py]) *)

(** A call either returns or raises an exception, here its message
    [str(e)]; the store keeps what was written before. *)
Inductive outcome (A : Type) :=
| Returned (a : A)
| Raised (e : pystr).

Arguments Returned {A} a.
Arguments Raised {A} e.

Definition M (A : Type) : Type := heap -> outcome A * heap.

Definition ret {A} (a : A) : M A := fun h => (Returned a, h).

Definition bind {A B} (m : M A) (k : A -> M B) : M B :=
  fun h =>
    match m h with
    | (Returned a, h') => k a h'
    | (Raised e, h') => (Raised e, h')
    end.

(** A call that cannot raise. *)
Definition lift {A} (f : heap -> A * heap) : M A :=
  fun h => let '(a, h') := f h in (Returned a, h').

(** A call that only reads the store. *)
Definition reads {A} (f : heap -> A) : M A := fun h => (Returned (f h), h).

(** [try: body except Exception as e: handler] around a body that returns. *)
Definition try_except {A} (body : M A) (handler : pystr -> A) (h : heap) : A * heap :=
  match body h with
  | (Returned a, h') => (a, h')
  | (Raised e, h') => (handler e, h')
  end.

Declare Scope pipeline_scope.
Delimit Scope pipeline_scope with pipeline.
Notation "x <- m ;; k" := (bind m (fun x => k))
  (at level 100, m at next level, right associativity) : pipeline_scope.

(** The services the constructor stores in the object. *)
Record NewsPipelineService := mkNewsPipelineService {
  naver_service : pystr -> M (list loc);
  keyword_filter : list loc -> M (list loc);
  classifier : list loc -> M (list loc);
  summary : list loc -> M (list Result.t)
}.

Section Orchestrator.

Variable rt : runtime.
Variable self : NewsPipelineService.

(** [asyncio.gather] with [return_exceptions=True]: the coroutines of
    the adapter have no suspension point, so they run one after the other
    in the order of the list; an exception becomes the task's result. *)
Fixpoint gather {A} (tasks : list (M A)) (h : heap) : list (outcome A) * heap :=
  match tasks with
  | [] => ([], h)
  | task :: tasks' =>
      let '(r, h1) := task h in
      let '(rs, h2) := gather tasks' h1 in
      (r :: rs, h2)
  end.

(** The loop over [news_results]: lists extend [all_news], anything else
    is only logged. *)
Definition extend_all (news_results : list (outcome (list loc))) : list loc :=
  fold_left
    (fun all_news r =>
       match r with
       | Returned l => all_news ++ l
       | Raised _ => all_news
       end)
    news_results [].

Definition is_empty {A} (l : list A) : bool :=
  match l with [] => true | _ :: _ => false end.

Open Scope pipeline_scope.

(** The body of the [try] statement. *)
Definition pipeline_body (companies : list pystr) : M pipeline_result :=
  news_results <- lift (gather (map (naver_service self) companies)) ;;
  let all_news := extend_all news_results in
  if is_empty all_news then
    ret (mkPipelineResult success (py "수집된 뉴스가 없습니다.")
           0 0 None 0 0 None [])
  else
  keyword_filtered_news <- keyword_filter self all_news ;;
  if is_empty keyword_filtered_news then
    ret (mkPipelineResult success (py "키워드 필터링을 통과한 뉴스가 없습니다.")
           (length all_news) 0 (Some 0) 0 0 None [])
  else
  deduped_news <- reads (remove_similar_titles rt keyword_filtered_news) ;;
  if is_empty deduped_news then
    ret (mkPipelineResult success (py "유사 제목 제거 후 남은 뉴스가 없습니다.")
           (length all_news) (length keyword_filtered_news) (Some 0) 0 0 None [])
  else
  classified_news <- classifier self deduped_news ;;
  if is_empty classified_news then
    ret (mkPipelineResult success (py "AI 분류를 통과한 뉴스가 없습니다.")
           (length all_news) (length keyword_filtered_news)
           (Some (length deduped_news)) 0 0 None [])
  else
  final_results <- summary self classified_news ;;
  ret (mkPipelineResult success (py "뉴스 파이프라인 처리 완료")
         (length all_news) (length keyword_filtered_news)
         (Some (length deduped_news)) (length classified_news)
         (length final_results) (Some companies) final_results).

Close Scope pipeline_scope.

(** The [except Exception] handler. *)
Definition pipeline_error (e : pystr) : pipeline_result :=
  mkPipelineResult error (py "파이프라인 처리 중 오류 발생: " ++ e)
    0 0 (Some 0) 0 0 None [].

Definition process_news_pipeline (companies : list pystr) (h : heap)
    : pipeline_result * heap :=
  try_except (pipeline_body companies) pipeline_error h.

End Orchestrator.

(** The singleton [news_pipeline_service], with the singletons of the four
    services; none of them raises. *)
Definition news_pipeline_service (rt : runtime) (net : network) : NewsPipelineService :=
  mkNewsPipelineService
    (fun c => lift (fetch_news_for_company net c))
    (fun l => lift (filter_by_keywords rt keyword_filter_service l))
    (fun l => lift (classify_news net l))
    (fun l => lift (summarize_news rt net l)).

(** A run of the pipeline of the repository. *)
Definition run_pipeline (rt : runtime) (net : network) (companies : list pystr)
    (h : heap) : pipeline_result * heap :=
  process_news_pipeline rt (news_pipeline_service rt net) companies h.

(** ** Vocabulary of the properties *)

Section Vocabulary.

Variable rt : runtime.

(** The keyword, lower-cased, is a substring of the lower-cased title. *)
Definition keyword_occurs (title_lower keyword : pystr) : bool :=
  Str.contains (lower rt keyword) title_lower.

(** The lexicon entries that occur in the title of [n], in lexicon order. *)
Definition matching_keywords (self : KeywordFilterService) (n : news) : list pystr :=
  List.filter (keyword_occurs (lower rt (get_str (title n)))) (important_keywords self).

(** At least one lexicon entry occurs in the title of [n]. *)
Definition has_keyword (self : KeywordFilterService) (n : news) : bool :=
  existsb (keyword_occurs (lower rt (get_str (title n)))) (important_keywords self).

(** The title the deduplication compares: [news.get("title", "").strip()]. *)
Definition stripped_title (n : news) : pystr := Str.strip (get_str (title n)).

(** The title is absent, empty or made of white space only. *)
Definition blank_title (n : news) : Prop := stripped_title n = [].

(** The score of the title of [a] against the title of [b] reaches the
    threshold. *)
Definition similar_to (a b : news) : Prop :=
  (85 <= token_set_ratio rt (stripped_title a) (stripped_title b))%Z.

(** The reading of the deduplication in which similarity to a kept title
    is the only reason to discard a candidate: a step leaves the kept list
    as it is exactly when some kept title is similar to the candidate's. *)
Definition discards_only_similar (h : heap) : Prop :=
  forall (kept : list loc) (c : loc),
    dedup_step rt h kept c = kept
    <-> exists k, In k kept /\ similar_to (h !!! c) (h !!! k).

End Vocabulary.

(** The titles sent to the classifier. *)
Definition titles_of (h : heap) (news_list : list loc) : list pystr :=
  map (fun r => get_str (title (h !!! r))) news_list.

(** The classifier gave no usable answer: a status other than 200 (every
    status outside the 2xx range is one) or an exception. *)
Definition classifier_failure (o : classifier_outcome) : Prop :=
  match o with
  | ClassifierResponse status_code _ => status_code <> 200%Z
  | ConnectError | TimeoutException | RequestError | OtherException => True
  end.

(** The confidence of the entry, 0 when it has none, is at least 0.6. *)
Definition accepted (p : prediction) : bool :=
  Qle_bool float_0_6 (default 0%Q (p_confidence p)).

(** The copy of [n] annotated with the entry [p]. *)
Definition annotate (p : prediction) (n : news) : news :=
  set_classification (Classification.mk (p_label p) (p_confidence p)) n.

(** Positional pairing in the words of the specification: entry [i] of the
    response goes with item [i] of the input, as far as both exist; the
    pairs with an accepted entry remain, each item annotated with its
    entry. *)
Definition classified_by_position (h : heap) (news_list : list loc)
    (batch_results : list prediction) : list news :=
  map (fun rp => annotate rp.2 (h !!! rp.1))
      (List.filter (fun rp => accepted rp.2) (zip news_list batch_results)).

(** The reading of the fallback summary in which every item gets a
    non-empty text of at most 100 characters that contains its company
    name. *)
Definition fallback_summary_within_bounds (n : news) : Prop :=
  _generate_fallback_summary n <> []
  /\ length (_generate_fallback_summary n) <= 100
  /\ Str.contains (get_str (company n)) (_generate_fallback_summary n) = true.

(** The text handed to [strptime]. *)
Definition date_text (pub_date : pystr) : pystr := Str.strip (Str.before_plus pub_date).

(** The reading of the date normalization in which every input that does
    not parse yields the current date. *)
Definition substitutes_today (rt : runtime) (pub_date : pystr) : Prop :=
  strptime rt (date_text pub_date) = None ->
  _format_published_date rt pub_date = strftime rt (now rt).

(** The reading of a stage in which the call leaves every record it
    received as it was: store [h] before the call, [h'] after it. *)
Definition leaves_inputs_unchanged (h h' : heap) (news_list : list loc) : Prop :=
  forall r, In r news_list -> h' !!! r = h !!! r.

(** Two dictionaries agree on every key but ["matched_keywords"]. *)
Definition same_but_keywords (n n' : news) : Prop :=
  company n' = company n /\ title n' = title n /\ description n' = description n
  /\ link n' = link n /\ pubDate n' = pubDate n /\ category n' = category n
  /\ classification n' = classification n.

(** Two dictionaries agree on every key but ["classification"]. *)
Definition same_but_classification (n n' : news) : Prop :=
  company n' = company n /\ title n' = title n /\ description n' = description n
  /\ link n' = link n /\ pubDate n' = pubDate n /\ category n' = category n
  /\ matched_keywords n' = matched_keywords n.

(** ** Invariants of the loops *)

(** What the store looks like while the loop runs, against the store [h0]
    the call started from. *)
Record filter_inv (rt : runtime) (self : KeywordFilterService) (h0 : heap) (kept : list loc) (h : heap) : Prop := {
  inv_length : length h = length h0;
  inv_fields : forall r, same_but_keywords (h0 !!! r) (h !!! r);
  inv_kept : forall r, In r kept -> r < length h0 ->
      matched_keywords (h !!! r) = Some (matching_keywords rt self (h0 !!! r));
  inv_rest : forall r, ~ In r kept -> h !!! r = h0 !!! r
}.

(** The references the loop on a 200 response returns, counted from
    [base], for the pairs of item and entry. *)
Fixpoint accepted_refs (base : nat) (pairs : list (loc * prediction)) : list loc :=
  match pairs with
  | [] => []
  | rp :: pairs' =>
      (if accepted rp.2 then [base] else []) ++ accepted_refs (S base) pairs'
  end.

(** ** A concrete runtime and network

    Used to run the model on concrete inputs.  The library functions are
    replaced by small functions that agree with them on the inputs used
    below: [lower] on ASCII and Hangul text; a similarity score of 100 for
    identical titles and below the threshold for the unrelated titles
    used; dates in the fixed-width form of the news search API. *)

Module Sample.

Definition exact_ratio (s t : pystr) : Z := if Str.eqb s t then 100%Z else 0%Z.

Definition digit (c : codepoint) : option Z :=
  if ((48 <=? c) && (c <=? 57))%N then Some (Z.of_N c - 48)%Z else None.

Fixpoint number_from (acc : Z) (s : pystr) : option Z :=
  match s with
  | [] => Some acc
  | c :: s' =>
      match digit c with
      | Some d => number_from (10 * acc + d)%Z s'
      | None => None
      end
  end.

(** A non-empty run of decimal digits. *)
Definition number (s : pystr) : option Z :=
  match s with [] => None | _ :: _ => number_from 0%Z s end.

Fixpoint index_of (x : pystr) (l : list pystr) (i : Z) : option Z :=
  match l with
  | [] => None
  | y :: l' => if Str.eqb x y then Some i else index_of x l' (i + 1)%Z
  end.

Definition day_names : list pystr :=
  [py "Mon"; py "Tue"; py "Wed"; py "Thu"; py "Fri"; py "Sat"; py "Sun"].

Definition month_names : list pystr :=
  [py "Jan"; py "Feb"; py "Mar"; py "Apr"; py "May"; py "Jun";
   py "Jul"; py "Aug"; py "Sep"; py "Oct"; py "Nov"; py "Dec"].

Definition leap (y : Z) : bool :=
  ((y mod 4 =? 0) && (negb (y mod 100 =? 0) || (y mod 400 =? 0)))%Z.

Definition days_in_month (y m : Z) : Z :=
  if (m =? 2)%Z then (if leap y then 29 else 28)%Z
  else if ((m =? 4) || (m =? 6) || (m =? 9) || (m =? 11))%Z then 30%Z
  else 31%Z.

Definition between (lo x hi : Z) : bool := ((lo <=? x) && (x <=? hi))%Z.

(** Text of the form [Mon, 18 Dec 2023 14:30:00]. *)
Definition parse_pub_date (s : pystr) : option datetime :=
  let field (from len : nat) := take len (drop from s) in
  if negb (length s =? 25) then None
  else if negb (Str.eqb (field 3 2) (py ", ") && Str.eqb (field 7 1) (py " ")
                && Str.eqb (field 11 1) (py " ") && Str.eqb (field 16 1) (py " ")
                && Str.eqb (field 19 1) (py ":") && Str.eqb (field 22 1) (py ":"))
  then None
  else
    match index_of (field 0 3) day_names 0%Z, number (field 5 2),
          index_of (field 8 3) month_names 1%Z, number (field 12 4),
          number (field 17 2), number (field 20 2), number (field 23 2) with
    | Some _, Some d, Some m, Some y, Some hh, Some mm, Some ss =>
        if between 1 y 9999 && between 1 d (days_in_month y m)
           && between 0 hh 23 && between 0 mm 59 && between 0 ss 61
        then Some (mkDatetime y m d hh mm ss)
        else None
    | _, _, _, _, _, _, _ => None
    end.

Definition digit_char (d : Z) : codepoint := Z.to_N (48 + d mod 10)%Z.

(** Year, month and day as eight decimal digits. *)
Definition render_date (dt : datetime) : pystr :=
  let y := year dt in
  [digit_char (y / 1000); digit_char (y / 100); digit_char (y / 10); digit_char y;
   digit_char (month dt / 10); digit_char (month dt);
   digit_char (day dt / 10); digit_char (day dt)].

Definition today : datetime := mkDatetime 2024 1 15 9 0 0.

Definition rt : runtime :=
  mkRuntime Str.ascii_lower exact_ratio parse_pub_date render_date today
            (fun i => py "id-" ++ [digit_char (Z.of_nat i)]).

Definition item (company_s title_s description_s : string) : news :=
  mkNews (Some (py company_s)) (Some (py title_s)) (Some (py description_s))
         (Some (py "https://n.news/1")) (Some (py "Mon, 18 Dec 2023 14:30:00 +0900"))
         None None None.

(** A classifier that answers status 500 and a summarizer that times out. *)
Definition net_down : network :=
  mkNetwork (fun _ => NaverFailure)
            (fun _ => ClassifierResponse 500 [])
            (fun _ _ _ => SummarizerRequestError).

(** A classifier whose answer covers two titles. *)
Definition net_up : network :=
  mkNetwork (fun _ => NaverItems [mkRawItem (Some (py "<b>신작</b> 출시")) (Some (py "설명"))
                                            (Some (py "https://n.news/2")) None])
            (fun _ => ClassifierResponse 200
                        [mkPrediction (Some (py "important")) (Some (7 # 8)%Q);
                         mkPrediction (Some (py "trivial")) (Some (1 # 4)%Q)])
            (fun _ _ _ => SummarizerResponse 200 (Some (py "요약문"))).

End Sample.

(** ** Proof automation *)

(** Closes the goals about a result that an early return wrote out. *)
Ltac early_return :=
  simpl; intros;
  first [ reflexivity | lia | discriminate | congruence
        | match goal with
          | H : Some _ = Some _ |- _ => injection H as <-; lia
          end ].

(** * Further vocabulary *)

(** ** News source adapter *)

(** The text holds a tag in the sense of the pattern [<.*?>]: an opening
    bracket followed by a closing bracket with no line break between
    them. *)
Definition has_tag (s : pystr) : Prop :=
  exists pre mid post, s = pre ++ 60%N :: mid ++ 62%N :: post /\ ~ In 10%N mid.

(** Scans for a tag; [opened] tells whether an opening bracket was seen
    since the last line break. *)
Fixpoint tag_free_from (opened : bool) (s : pystr) : bool :=
  match s with
  | [] => true
  | c :: s' =>
      if (c =? 60)%N then tag_free_from true s'
      else if (c =? 62)%N then (if opened then false else tag_free_from false s')
      else if (c =? 10)%N then tag_free_from false s'
      else tag_free_from opened s'
  end.

(** The items of a response; none after a failure. *)
Definition items_of (o : naver_outcome) : list raw_item :=
  match o with
  | NaverItems items => items
  | NaverFailure => []
  end.

(** The record [fetch_news_for_company] builds for one item. *)
Definition collected_record (company_name : pystr) (item : raw_item) : news :=
  mkNews (Some company_name)
         (Some (_clean_html_tags (get_str (r_title item))))
         (Some (_clean_html_tags (get_str (r_description item))))
         (Some (get_str (r_link item)))
         (Some (get_str (r_pubDate item)))
         None None None.

(** The records of all companies, in the order of the companies and, for
    each company, of its items. *)
Definition collected (net : network) (companies : list pystr) : list news :=
  concat (map (fun c => map (collected_record c) (items_of (naver_get net c))) companies).

(** Closes the goal about the trace of a run that ends in an early
    return. *)
Ltac early_exit :=
  split; [reflexivity|]; split; [reflexivity|]; left; reflexivity.

(** * Issue service

    [IssueService.process_news_pipeline_with_response] of
    [issue_service.py]. *)

Module IssueResponse.

(** The fields of the response schema. *)
Record t := mk {
  status : status_t;
  message : pystr;
  total_collected : nat;
  after_keyword_filter : nat;
  after_deduplication : nat;
  after_classification : nat;
  final_summaries : nat;
  companies_processed : nat;
  results : list Result.t
}.

End IssueResponse.

Section IssueService.

Variable rt : runtime.
Variable self : NewsPipelineService.

Open Scope pipeline_scope.

(** The pipeline is awaited inside a [try]; the response is built from the
    dictionary with [result.get(key, default)]. *)
Definition process_news_pipeline_with_response (companies : list pystr) (h : heap)
    : IssueResponse.t * heap :=
  try_except
    (result <- lift (process_news_pipeline rt self companies) ;;
     let results := results result in
     ret (IssueResponse.mk success
            (message result)
            (total_collected result)
            (after_keyword_filter result)
            (default 0 (after_deduplication result))
            (after_classification result)
            (final_summaries result)
            (length (default [] (companies_processed result)))
            results))
    (fun e => IssueResponse.mk error (py "뉴스 파이프라인 처리 실패: " ++ e)
                0 0 0 0 0 0 [])
    h.

Close Scope pipeline_scope.

End IssueService.

(** * Summary predictor

    The text functions of [SummarizerPredictor] in [real_predictor.py]. *)

Module SummarizerPredictor.

(** [text.split('\n')[0]]: the part before the first line feed. *)
Fixpoint first_line (s : pystr) : pystr :=
  match s with
  | [] => []
  | c :: s' => if (c =? 10)%N then [] else c :: first_line s'
  end.

(** The marker the prompt ends with. *)
Definition marker : pystr := py "요약:".

(** [s.replace(marker, '')], scanning from the left; [skip] counts the code
    points of an occurrence still to be passed over. *)
Fixpoint remove_marker_from (skip : nat) (s : pystr) : pystr :=
  match s with
  | [] => []
  | c :: s' =>
      match skip with
      | S k => remove_marker_from k s'
      | 0 =>
          if Str.startswith marker s then remove_marker_from (length marker - 1) s'
          else c :: remove_marker_from 0 s'
      end
  end.

Definition remove_marker (s : pystr) : pystr := remove_marker_from 0 s.

(** The line before the truncation: stripped, the marker removed, stripped
    again. *)
Definition cleaned_line (text : pystr) : pystr :=
  Str.strip (remove_marker (Str.strip (first_line text))).

Definition _clean_generated_text (text : pystr) : pystr :=
  if negb (Str.truthy text) then []
  else
    let cleaned := Str.strip (first_line text) in
    let cleaned := Str.strip (remove_marker cleaned) in
    if 200 <? length cleaned then Str.slice_to 200 cleaned ++ py "..."
    else cleaned.

(** What the model and the tokenizer give for a prompt: the decoded
    continuation, or an exception with its text (the model is not loaded,
    the device fails). *)
Inductive generation :=
  | Decoded (generated_text : pystr)
  | GenerationError (e : pystr).

(** [generate_summary], given the outcome of the generation. *)
Definition generate_summary (g : generation) : pystr :=
  match g with
  | Decoded generated_text =>
      let generated_text := Str.strip generated_text in
      let summary := _clean_generated_text generated_text in
      if Str.truthy summary then summary else py "요약을 생성할 수 없습니다."
  | GenerationError e => py "요약 생성 중 오류 발생: " ++ e
  end.

End SummarizerPredictor.

(** * Properties *)

(** ** The model on concrete inputs *)

Example py_decodes_hangul :
  py " 관련 뉴스: " = [32; 44288; 47144; 32; 45684; 49828; 58; 32]%N.
Proof. reflexivity. Qed.

Example strip_keeps_inner_space : Str.strip (py "  a b  ") = py "a b".
Proof. reflexivity. Qed.

Example clean_html_tags_drops_tags :
  _clean_html_tags (py "<b>신작</b> 출시 <") = py "신작 출시 <".
Proof. vm_compute. reflexivity. Qed.

Example format_published_date_sample :
  _format_published_date Sample.rt (py "Mon, 18 Dec 2023 14:30:00 +0900") = py "20231218".
Proof. vm_compute. reflexivity. Qed.

(** A complete run: one item is collected, kept by every stage and
    summarized; the classifier adds one record to the store. *)
Example run_pipeline_sample :
  exists r h,
    run_pipeline Sample.rt Sample.net_up [py "크래프톤"] [] = (r, h)
    /\ status r = success /\ total_collected r = 1 /\ after_keyword_filter r = 1
    /\ after_deduplication r = Some 1 /\ after_classification r = 1
    /\ final_summaries r = 1 /\ length h = 2.
Proof. eexists _, _. split; [vm_compute; reflexivity|]. repeat split. Qed.

(** ** Strings *)

Lemma truthy_false_iff (s : pystr) : Str.truthy s = false <-> s = [].
Proof. destruct s; simpl; split; congruence. Qed.

Lemma truthy_true_iff (s : pystr) : Str.truthy s = true <-> s <> [].
Proof. destruct s; simpl; split; congruence. Qed.

Lemma eqb_nil_r (s : pystr) : Str.eqb s [] = true <-> s = [].
Proof. destruct s; simpl; split; congruence. Qed.

Lemma startswith_app (p s : pystr) : Str.startswith p (p ++ s) = true.
Proof.
  induction p as [|c p IH]; simpl; [reflexivity|].
  rewrite N.eqb_refl, IH. reflexivity.
Qed.

Lemma startswith_contains (p s : pystr) :
  Str.startswith p s = true -> Str.contains p s = true.
Proof. intros H. destruct s; simpl; rewrite H; reflexivity. Qed.

(** A string contains each of its own substrings. *)
Lemma contains_app (pre needle post : pystr) :
  Str.contains needle (pre ++ needle ++ post) = true.
Proof.
  induction pre as [|c pre IH]; simpl.
  - apply startswith_contains, startswith_app.
  - rewrite IH. apply orb_true_r.
Qed.

Lemma startswith_length (p s : pystr) :
  Str.startswith p s = true -> length p <= length s.
Proof.
  revert s. induction p as [|c p IH]; intros [|d s]; simpl; try lia; try discriminate.
  intros H. apply andb_true_iff in H as [_ H]. apply IH in H. lia.
Qed.

(** A substring is not longer than the string. *)
Lemma contains_length (needle hay : pystr) :
  Str.contains needle hay = true -> length needle <= length hay.
Proof.
  induction hay as [|c hay IH]; simpl; intros H.
  - apply orb_true_iff in H as [H|H]; [|discriminate].
    apply startswith_length in H. exact H.
  - apply orb_true_iff in H as [H|H].
    + apply startswith_length in H. exact H.
    + apply IH in H. lia.
Qed.

(** ** Keyword filter *)

Section KeywordFilterFacts.

Variable rt : runtime.
Variable self : KeywordFilterService.

Lemma match_keywords_fold (t : pystr) (kws : list pystr) (b : bool) (acc : list pystr) :
  fold_left
    (fun st keyword =>
       if Str.contains (lower rt keyword) t then (true, st.2 ++ [keyword]) else st)
    kws (b, acc)
  = (b || existsb (keyword_occurs rt t) kws, acc ++ List.filter (keyword_occurs rt t) kws).
Proof.
  revert b acc. induction kws as [|k kws IH]; intros b acc; simpl.
  - rewrite orb_false_r, app_nil_r. reflexivity.
  - unfold keyword_occurs at 1 3. destruct (Str.contains (lower rt k) t); simpl.
    + rewrite IH. rewrite orb_true_r. simpl. rewrite <- app_assoc. reflexivity.
    + rewrite IH. reflexivity.
Qed.

Lemma match_keywords_spec (t : pystr) :
  match_keywords rt self t
  = (existsb (keyword_occurs rt t) (important_keywords self),
     List.filter (keyword_occurs rt t) (important_keywords self)).
Proof. unfold match_keywords. rewrite match_keywords_fold. reflexivity. Qed.

Lemma existsb_filter_nonempty {A} (f : A -> bool) (l : list A) :
  existsb f l = true <-> List.filter f l <> [].
Proof.
  induction l as [|x l IH]; simpl.
  - split; [discriminate | congruence].
  - destruct (f x); simpl; [split; [discriminate | reflexivity] | exact IH].
Qed.

Lemma has_keyword_iff (n : news) :
  has_keyword rt self n = true
  <-> exists keyword, In keyword (important_keywords self)
        /\ Str.contains (lower rt keyword) (lower rt (get_str (title n))) = true.
Proof. unfold has_keyword. rewrite existsb_exists. reflexivity. Qed.

Lemma same_but_keywords_refl (n : news) : same_but_keywords n n.
Proof. repeat split. Qed.

Lemma same_but_keywords_set (kws : list pystr) (n n' : news) :
  same_but_keywords n n' -> same_but_keywords n (set_matched_keywords kws n').
Proof. unfold same_but_keywords. simpl. tauto. Qed.

Lemma filter_step_inv (h0 : heap) (kept : list loc) (h : heap) (r : loc) :
  filter_inv rt self h0 kept h ->
  exists h',
    filter_step rt self (kept, h) r
    = (kept ++ (if has_keyword rt self (h0 !!! r) then [r] else []), h')
    /\ filter_inv rt self h0 (kept ++ (if has_keyword rt self (h0 !!! r) then [r] else [])) h'.
Proof.
  intros [Hlen Hfields Hkept Hrest].
  unfold filter_step.
  assert (Ht : title (h !!! r) = title (h0 !!! r)) by apply Hfields.
  rewrite Ht, match_keywords_spec.
  fold (has_keyword rt self (h0 !!! r)). fold (matching_keywords rt self (h0 !!! r)).
  destruct (has_keyword rt self (h0 !!! r)) eqn:Hk.
  - eexists. split; [reflexivity|]. constructor.
    + rewrite length_insert. exact Hlen.
    + intros r'. rewrite list_lookup_total_insert. case_decide as Hd.
      * destruct Hd as [<- _]. apply same_but_keywords_set, Hfields.
      * apply Hfields.
    + intros r' Hin Hlt. rewrite list_lookup_total_insert. case_decide as Hd.
      * destruct Hd as [<- _]. reflexivity.
      * apply Hkept; [|exact Hlt]. apply in_app_or in Hin as [Hin|[Hin|[]]]; [exact Hin|].
        subst r'. exfalso. apply Hd. split; [reflexivity | lia].
    + intros r' Hnin. rewrite list_lookup_total_insert. case_decide as Hd.
      * destruct Hd as [<- _]. exfalso. apply Hnin, in_or_app. right. left. reflexivity.
      * apply Hrest. intros Hin. apply Hnin, in_or_app. left. exact Hin.
  - rewrite app_nil_r. eexists. split; [reflexivity|]. constructor; assumption.
Qed.

Lemma filter_fold_inv (h0 : heap) (news_list kept : list loc) (h : heap) :
  filter_inv rt self h0 kept h ->
  exists h',
    fold_left (filter_step rt self) news_list (kept, h)
    = (kept ++ List.filter (fun r => has_keyword rt self (h0 !!! r)) news_list, h')
    /\ filter_inv rt self h0 (kept ++ List.filter (fun r => has_keyword rt self (h0 !!! r)) news_list) h'.
Proof.
  revert kept h. induction news_list as [|r news_list IH]; intros kept h Hinv;
    cbn [fold_left List.filter].
  - rewrite app_nil_r. eauto.
  - destruct (filter_step_inv h0 kept h r Hinv) as (h1 & -> & Hinv1).
    destruct (IH _ _ Hinv1) as (h' & -> & Hinv').
    destruct (has_keyword rt self (h0 !!! r)); simpl.
    + rewrite <- app_assoc in *. simpl in *. eauto.
    + rewrite app_nil_r in *. eauto.
Qed.

Lemma filter_by_keywords_inv (news_list : list loc) (h : heap) :
  exists h',
    filter_by_keywords rt self news_list h
    = (List.filter (fun r => has_keyword rt self (h !!! r)) news_list, h')
    /\ filter_inv rt self h (List.filter (fun r => has_keyword rt self (h !!! r)) news_list) h'.
Proof.
  unfold filter_by_keywords.
  apply (filter_fold_inv h news_list [] h).
  constructor; [reflexivity | intros; apply same_but_keywords_refl | intros ? [] | reflexivity].
Qed.

End KeywordFilterFacts.

Lemma filter_sublist {A} (f : A -> bool) (l : list A) : List.filter f l `sublist_of` l.
Proof.
  induction l as [|x l IH]; simpl; [constructor|].
  destruct (f x); [apply sublist_skip | apply sublist_cons]; exact IH.
Qed.

Lemma filter_by_keywords_output
    (rt : runtime) (self : KeywordFilterService) (news_list : list loc) (h : heap) :
  (filter_by_keywords rt self news_list h).1
  = List.filter (fun r => has_keyword rt self (h !!! r)) news_list
  /\ (filter_by_keywords rt self news_list h).1 `sublist_of` news_list.
Proof.
  destruct (filter_by_keywords_inv rt self news_list h) as (h' & -> & _).
  split; [reflexivity | apply filter_sublist].
Qed.

(** C6. [filter_by_keywords] keeps exactly the items in whose lower-cased
    title at least one lexicon keyword, lower-cased, occurs as a substring,
    in input order; each kept item carries the non-empty list of all the
    lexicon entries that occur, in lexicon order; an item without a match
    is dropped.  With the lexicon of the repository extended by "listing",
    the item titled "Company announces new listing" is kept with matched
    keywords ["listing"], and an item without any lexicon substring is
    dropped. *)
Theorem filter_by_keywords_retains_matches
    (rt : runtime) (self : KeywordFilterService) (news_list : list loc) (h : heap) :
  live h news_list ->
  let out := (filter_by_keywords rt self news_list h).1 in
  let h' := (filter_by_keywords rt self news_list h).2 in
  out = List.filter (fun r => has_keyword rt self (h !!! r)) news_list
  /\ (forall r, In r out <->
        In r news_list
        /\ exists keyword, In keyword (important_keywords self)
             /\ Str.contains (lower rt keyword) (lower rt (get_str (title (h !!! r)))) = true)
  /\ (forall r, In r out ->
        matched_keywords (h' !!! r) = Some (matching_keywords rt self (h !!! r))
        /\ matching_keywords rt self (h !!! r) <> [])
  /\ out `sublist_of` news_list
  /\ (let lexicon := mkKeywordFilterService (default_keywords ++ [py "listing"]) in
      let listed := Sample.item "Company" "Company announces new listing" "text" in
      let other := Sample.item "Company" "Company holds a picnic" "text" in
      filter_by_keywords Sample.rt lexicon [0; 1] [listed; other]
      = ([0], [set_matched_keywords [py "listing"] listed; other])).
Proof.
  intros Hlive out h'. subst out h'.
  destruct (filter_by_keywords_inv rt self news_list h) as (h' & -> & Hinv).
  cbn [fst snd].
  assert (Hin : forall r, In r (List.filter (fun r => has_keyword rt self (h !!! r)) news_list)
                 <-> In r news_list /\ has_keyword rt self (h !!! r) = true)
    by (intros r; apply filter_In).
  split; [reflexivity|]. split; [|split; [|split]].
  - intros r. rewrite Hin, has_keyword_iff. reflexivity.
  - intros r Hr. split.
    + apply (inv_kept _ _ _ _ _ Hinv); [exact Hr|].
      apply Hin in Hr as [Hr _].
      unfold live in Hlive. rewrite Forall_forall in Hlive.
      apply Hlive, list_elem_of_In, Hr.
    + apply Hin in Hr as [_ Hr]. unfold has_keyword in Hr.
      apply existsb_filter_nonempty in Hr. exact Hr.
  - apply filter_sublist.
  - vm_compute. reflexivity.
Qed.

Lemma filter_by_keywords_retains_matches_witness :
  live [Sample.item "크래프톤" "크래프톤 신작 출시" "설명"] [0]
  /\ (filter_by_keywords Sample.rt keyword_filter_service [0]
        [Sample.item "크래프톤" "크래프톤 신작 출시" "설명"]).1 = [0]
  /\ matched_keywords
       ((filter_by_keywords Sample.rt keyword_filter_service [0]
          [Sample.item "크래프톤" "크래프톤 신작 출시" "설명"]).2 !!! 0)
     = Some [py "신작"; py "출시"].
Proof.
  assert (Hlive : live [Sample.item "크래프톤" "크래프톤 신작 출시" "설명"] [0]).
  { constructor; [simpl; lia | constructor]. }
  split; [exact Hlive|].
  pose proof (filter_by_keywords_retains_matches Sample.rt keyword_filter_service [0]
                [Sample.item "크래프톤" "크래프톤 신작 출시" "설명"] Hlive) as H.
  cbv zeta in H. destruct H as (Hout & _ & Hkw & _).
  split.
  - rewrite Hout. vm_compute. reflexivity.
  - destruct (Hkw 0) as [-> _].
    + rewrite Hout. vm_compute. left. reflexivity.
    + vm_compute. reflexivity.
Defined.

(** ** Similarity deduplication *)

Lemma lstrip_nil_iff (s : pystr) :
  Str.lstrip s = [] <-> forall c, In c s -> Str.isspace c = true.
Proof.
  induction s as [|c s IH]; simpl.
  - split; [intros _ ? [] | reflexivity].
  - destruct (Str.isspace c) eqn:Hc.
    + rewrite IH. split.
      * intros H d [<-|Hd]; [exact Hc | apply H, Hd].
      * intros H d Hd. apply H. right. exact Hd.
    + split; [discriminate|]. intros H. rewrite (H c) in Hc; [discriminate | left; reflexivity].
Qed.

Lemma lstrip_head (s : pystr) (c : codepoint) (s' : pystr) :
  Str.lstrip s = c :: s' -> Str.isspace c = false.
Proof.
  induction s as [|d s IH]; simpl; [discriminate|].
  destruct (Str.isspace d) eqn:Hd; [exact IH|].
  intros [= <- _]. exact Hd.
Qed.

(** Stripping leaves nothing exactly when the string holds white space only. *)
Lemma strip_nil_iff (s : pystr) :
  Str.strip s = [] <-> forall c, In c s -> Str.isspace c = true.
Proof.
  rewrite <- lstrip_nil_iff. unfold Str.strip, Str.rstrip. split.
  - intros H. destruct (Str.lstrip s) as [|c s'] eqn:E; [reflexivity|]. exfalso.
    apply (f_equal (@rev _)) in H. rewrite rev_involutive in H. simpl in H.
    apply lstrip_nil_iff with (c := c) in H.
    + apply lstrip_head in E. congruence.
    + apply in_or_app. right. left. reflexivity.
  - intros ->. reflexivity.
Qed.

Section DeduplicationFacts.

Variable rt : runtime.
Variable h : heap.

Lemma is_similar_iff (t : pystr) (kept : list loc) :
  is_similar rt h t kept = true
  <-> exists k, In k kept /\ (85 <= token_set_ratio rt t (stripped_title (h !!! k)))%Z.
Proof.
  induction kept as [|k kept IH]; simpl.
  - split; [discriminate | intros (? & [] & _)].
  - fold (stripped_title (h !!! k)). unfold similarity_threshold.
    destruct (Z.leb_spec 85 (token_set_ratio rt t (stripped_title (h !!! k)))) as [Hle|Hlt].
    + split; [|reflexivity]. intros _. exists k. split; [left; reflexivity | exact Hle].
    + rewrite IH. split.
      * intros (k' & Hin & Hs). exists k'. split; [right; exact Hin | exact Hs].
      * intros (k' & [<-|Hin] & Hs); [lia|]. exists k'. split; assumption.
Qed.

Lemma dedup_step_blank (kept : list loc) (c : loc) :
  blank_title (h !!! c) -> dedup_step rt h kept c = kept.
Proof.
  unfold blank_title, stripped_title, dedup_step. intros ->. reflexivity.
Qed.

Lemma dedup_step_similar (kept : list loc) (c : loc) :
  (exists k, In k kept /\ similar_to rt (h !!! c) (h !!! k)) ->
  dedup_step rt h kept c = kept.
Proof.
  intros Hs. unfold dedup_step.
  destruct (negb (Str.truthy _)); [reflexivity|].
  apply is_similar_iff in Hs. fold (stripped_title (h !!! c)). rewrite Hs. reflexivity.
Qed.

Lemma dedup_step_fresh (kept : list loc) (c : loc) :
  ~ blank_title (h !!! c) ->
  (forall k, In k kept -> ~ similar_to rt (h !!! c) (h !!! k)) ->
  dedup_step rt h kept c = kept ++ [c].
Proof.
  intros Hb Hs. unfold dedup_step. fold (stripped_title (h !!! c)).
  apply truthy_true_iff in Hb. rewrite Hb. simpl.
  destruct (is_similar rt h (stripped_title (h !!! c)) kept) eqn:E; [|reflexivity].
  apply is_similar_iff in E as (k & Hin & Hk). exfalso. exact (Hs k Hin Hk).
Qed.

(** A step keeps the list or appends the candidate, which then has a
    title that is not blank. *)
Lemma dedup_step_cases (kept : list loc) (c : loc) :
  dedup_step rt h kept c = kept
  \/ (dedup_step rt h kept c = kept ++ [c] /\ ~ blank_title (h !!! c)).
Proof.
  unfold dedup_step. fold (stripped_title (h !!! c)).
  destruct (Str.truthy (stripped_title (h !!! c))) eqn:Ht; simpl; [|left; reflexivity].
  destruct (is_similar _ _ _ _); [left; reflexivity|].
  right. split; [reflexivity|]. apply truthy_true_iff, Ht.
Qed.

Lemma dedup_fold (news_list kept : list loc) :
  exists added,
    fold_left (dedup_step rt h) news_list kept = kept ++ added
    /\ added `sublist_of` news_list
    /\ (forall r, In r added -> ~ blank_title (h !!! r)).
Proof.
  revert kept. induction news_list as [|c l IH]; intros kept; cbn [fold_left].
  - exists []. rewrite app_nil_r. split; [reflexivity|]. split; [constructor | intros ? []].
  - destruct (dedup_step_cases kept c) as [->|[-> Hc]].
    + destruct (IH kept) as (added & -> & Hsub & Hnb).
      exists added. split; [reflexivity|]. split; [apply sublist_cons, Hsub | exact Hnb].
    + destruct (IH (kept ++ [c])) as (added & -> & Hsub & Hnb).
      exists (c :: added). rewrite <- app_assoc. split; [reflexivity|].
      split; [apply sublist_skip, Hsub|].
      intros r [<-|Hr]; [exact Hc | apply Hnb, Hr].
Qed.

Lemma remove_similar_titles_fold (news_list : list loc) :
  remove_similar_titles rt news_list h = fold_left (dedup_step rt h) news_list [].
Proof. destruct news_list; reflexivity. Qed.

Lemma remove_similar_titles_sublist (news_list : list loc) :
  remove_similar_titles rt news_list h `sublist_of` news_list.
Proof.
  rewrite remove_similar_titles_fold.
  destruct (dedup_fold news_list []) as (added & -> & Hsub & _). exact Hsub.
Qed.

End DeduplicationFacts.

(** Whether some kept title is similar is decided by the inner loop. *)
Lemma classic_similar (rt : runtime) (h : heap) (kept : list loc) (c : loc) :
  (exists k, In k kept /\ similar_to rt (h !!! c) (h !!! k))
  \/ ~ (exists k, In k kept /\ similar_to rt (h !!! c) (h !!! k)).
Proof.
  destruct (is_similar rt h (stripped_title (h !!! c)) kept) eqn:E.
  - left. apply is_similar_iff in E. exact E.
  - right. intros Hs. apply is_similar_iff in Hs. congruence.
Qed.

(** C2 (as amended). [remove_similar_titles] scans the list in order with an
    accumulating kept list.  A candidate whose title is not blank is
    discarded if and only if its score against some already kept title is
    at least 85, and is otherwise appended to the kept list; a candidate
    whose title is blank is discarded whatever the scores.  The output is a
    subsequence of the input, empty for the empty input, and for three
    items A, B, C where A and C have titles that are not blank, B scores at
    least 85 against A and C scores below 85 against A, it is [A, C]. *)
Theorem remove_similar_titles_greedy (rt : runtime) (h : heap) :
  (forall news_list,
     remove_similar_titles rt news_list h = fold_left (dedup_step rt h) news_list [])
  /\ (forall kept c, ~ blank_title (h !!! c) ->
        (dedup_step rt h kept c = kept
         <-> exists k, In k kept /\ similar_to rt (h !!! c) (h !!! k))
        /\ (dedup_step rt h kept c = kept ++ [c]
            <-> forall k, In k kept -> ~ similar_to rt (h !!! c) (h !!! k)))
  /\ (forall kept c, blank_title (h !!! c) -> dedup_step rt h kept c = kept)
  /\ (forall news_list, remove_similar_titles rt news_list h `sublist_of` news_list)
  /\ remove_similar_titles rt [] h = []
  /\ (forall a b c,
        ~ blank_title (h !!! a) -> ~ blank_title (h !!! c) ->
        similar_to rt (h !!! b) (h !!! a) ->
        ~ similar_to rt (h !!! c) (h !!! a) ->
        remove_similar_titles rt [a; b; c] h = [a; c]).
Proof.
  assert (Hne : forall (kept : list loc) (c : loc), kept ++ [c] <> kept).
  { intros kept c E. apply (f_equal (@length _)) in E. rewrite length_app in E. simpl in E. lia. }
  split; [apply remove_similar_titles_fold|].
  split; [|split; [apply dedup_step_blank|split; [apply remove_similar_titles_sublist|split; [reflexivity|]]]].
  - intros kept c Hb.
    destruct (classic_similar rt h kept c) as [Hs|Hs].
    + pose proof (dedup_step_similar rt h kept c Hs) as E. split.
      * split; [intros _; exact Hs | intros _; exact E].
      * split.
        -- intros E'. rewrite E in E'. symmetry in E'. destruct (Hne _ _ E').
        -- intros Hall. destruct Hs as (k & Hin & Hk). destruct (Hall k Hin Hk).
    + assert (Hall : forall k, In k kept -> ~ similar_to rt (h !!! c) (h !!! k)).
      { intros k Hin Hk. apply Hs. exists k. split; assumption. }
      pose proof (dedup_step_fresh rt h kept c Hb Hall) as E. split.
      * split; [|intros Hs'; destruct (Hs Hs')].
        intros E'. rewrite E in E'. destruct (Hne _ _ E').
      * split; [intros _; exact Hall | intros _; exact E].
  - intros a b c Ha Hc Hba Hca.
    rewrite remove_similar_titles_fold. cbn [fold_left].
    rewrite (dedup_step_fresh rt h [] a Ha) by (intros ? []).
    rewrite (dedup_step_similar rt h ([] ++ [a]) b)
      by (exists a; split; [left; reflexivity | exact Hba]).
    rewrite (dedup_step_fresh rt h ([] ++ [a]) c Hc)
      by (intros k [<-|[]]; exact Hca).
    reflexivity.
Qed.

Lemma remove_similar_titles_greedy_witness :
  let h := [Sample.item "크래프톤" "크래프톤 신작 출시" "a";
            Sample.item "크래프톤" " 크래프톤 신작 출시 " "b";
            Sample.item "넷마블" "넷마블 실적 발표" "c"] in
  ~ blank_title (h !!! 0) /\ ~ blank_title (h !!! 2)
  /\ similar_to Sample.rt (h !!! 1) (h !!! 0)
  /\ ~ similar_to Sample.rt (h !!! 2) (h !!! 0)
  /\ remove_similar_titles Sample.rt [0; 1; 2] h = [0; 2].
Proof.
  intros h.
  assert (Ha : ~ blank_title (h !!! 0)) by (vm_compute; discriminate).
  assert (Hc : ~ blank_title (h !!! 2)) by (vm_compute; discriminate).
  assert (Hba : similar_to Sample.rt (h !!! 1) (h !!! 0)) by (vm_compute; discriminate).
  assert (Hca : ~ similar_to Sample.rt (h !!! 2) (h !!! 0))
    by (vm_compute; intros H; apply H; reflexivity).
  repeat (split; [assumption|]).
  destruct (remove_similar_titles_greedy Sample.rt h) as (_ & _ & _ & _ & _ & H3).
  exact (H3 0 1 2 Ha Hc Hba Hca).
Defined.

(** C2 (as stated) fails: a candidate whose title is blank is discarded
    although no title has been kept, so that none scores 85 against it. *)
Lemma remove_similar_titles_blank_discarded :
  let h := [Sample.item "크래프톤" "   " "본문"] in
  remove_similar_titles Sample.rt [0] h = []
  /\ dedup_step Sample.rt h [] 0 = []
  /\ ~ discards_only_similar Sample.rt h.
Proof.
  intros h. split; [reflexivity|]. split; [reflexivity|].
  intros H. destruct (H [] 0) as [H0 _].
  destruct H0 as (k & [] & _). reflexivity.
Qed.

(** C10. An item whose title is absent, empty or white space only never
    appears in the output of [remove_similar_titles], nor in the kept list
    at any point of the scan, whatever the scores: a step on such an item
    leaves the kept list as it is. *)
Theorem remove_similar_titles_drops_blank (rt : runtime) (h : heap) (news_list : list loc) :
  (forall r, In r (remove_similar_titles rt news_list h) -> ~ blank_title (h !!! r))
  /\ (forall scanned rest, news_list = scanned ++ rest ->
        forall r, In r (fold_left (dedup_step rt h) scanned []) -> ~ blank_title (h !!! r))
  /\ (forall kept r, blank_title (h !!! r) -> dedup_step rt h kept r = kept)
  /\ (forall n, blank_title n
        <-> title n = None
            \/ exists s, title n = Some s /\ forall c, In c s -> Str.isspace c = true).
Proof.
  split; [|split; [|split]].
  - intros r. rewrite remove_similar_titles_fold.
    destruct (dedup_fold rt h news_list []) as (added & -> & _ & Hnb). apply Hnb.
  - intros scanned rest _ r.
    destruct (dedup_fold rt h scanned []) as (added & -> & _ & Hnb). apply Hnb.
  - apply dedup_step_blank.
  - intros n. unfold blank_title, stripped_title. rewrite strip_nil_iff.
    destruct (title n) as [s|]; simpl.
    + split.
      * intros H. right. exists s. split; [reflexivity | exact H].
      * intros [H|(s' & [= <-] & H)]; [discriminate | exact H].
    + split; [intros _; left; reflexivity | intros _ ? []].
Qed.

Lemma remove_similar_titles_drops_blank_witness :
  let h := [Sample.item "크래프톤" "크래프톤 신작 출시" "a";
            Sample.item "크래프톤" "  " "b";
            mkNews (Some (py "넷마블")) None None None None None None None] in
  blank_title (h !!! 1) /\ blank_title (h !!! 2)
  /\ remove_similar_titles Sample.rt [0; 1; 2] h = [0]
  /\ ~ In 1 (remove_similar_titles Sample.rt [0; 1; 2] h)
  /\ ~ In 2 (remove_similar_titles Sample.rt [0; 1; 2] h).
Proof.
  intros h.
  assert (H1 : blank_title (h !!! 1)) by (vm_compute; reflexivity).
  assert (H2 : blank_title (h !!! 2)) by (vm_compute; reflexivity).
  destruct (remove_similar_titles_drops_blank Sample.rt h [0; 1; 2]) as (Hout & _ & _ & _).
  split; [exact H1|]. split; [exact H2|]. split; [vm_compute; reflexivity|].
  split; intros Hin; [exact (Hout 1 Hin H1) | exact (Hout 2 Hin H2)].
Defined.

(** ** Classifier *)

Section ClassifierFacts.

Variable net : network.

(** The references the fallback loop returns and the copies it adds. *)
Lemma fallback_fold (h0 : heap) (news_list acc : list loc) (extra : heap) :
  live h0 news_list ->
  fold_left fallback_step news_list (acc, h0 ++ extra)
  = (acc ++ seq (length (h0 ++ extra)) (length news_list),
     (h0 ++ extra)
       ++ map (fun r => set_classification fallback_classification (h0 !!! r)) news_list).
Proof.
  revert acc extra. induction news_list as [|r l IH]; intros acc extra Hlive; cbn [fold_left].
  - simpl. rewrite !app_nil_r. reflexivity.
  - apply Forall_cons in Hlive as [Hr Hl].
    unfold fallback_step at 2. unfold alloc.
    rewrite (lookup_total_app_l h0 extra r Hr).
    rewrite <- (app_assoc h0 extra). rewrite IH by exact Hl.
    rewrite (app_assoc h0 extra). rewrite !length_app. cbn [length map seq].
    rewrite <- !app_assoc. cbn [app].
    rewrite Nat.add_1_r.
    reflexivity.
Qed.

Lemma _create_fallback_results_spec (news_list : list loc) (h : heap) :
  live h news_list ->
  _create_fallback_results news_list h
  = (seq (length h) (length news_list),
     h ++ map (fun r => set_classification fallback_classification (h !!! r)) news_list).
Proof.
  intros Hlive. unfold _create_fallback_results.
  pose proof (fallback_fold h news_list [] [] Hlive) as H.
  rewrite app_nil_r in H. exact H.
Qed.

Lemma classify_fold (batch : list prediction) (h0 : heap)
    (news_list : list loc) (k : nat) (acc : list loc) (extra : heap) :
  live h0 news_list ->
  fold_left (classify_step batch) (enumerate_from k news_list) (acc, h0 ++ extra)
  = (acc ++ accepted_refs (length (h0 ++ extra)) (zip news_list (drop k batch)),
     (h0 ++ extra)
       ++ map (fun rp => annotate rp.2 (h0 !!! rp.1)) (zip news_list (drop k batch))).
Proof.
  revert k acc extra.
  induction news_list as [|r l IH]; intros k acc extra Hlive; cbn [enumerate_from fold_left].
  - simpl. rewrite !app_nil_r. reflexivity.
  - apply Forall_cons in Hlive as [Hr Hl].
    unfold classify_step at 2.
    destruct (batch !! k) as [p|] eqn:Hk.
    + rewrite (drop_S _ _ _ Hk). cbn [zip_with map accepted_refs fst snd].
      unfold alloc. rewrite (lookup_total_app_l h0 extra r Hr).
      fold (annotate p (h0 !!! r)). fold (accepted p).
      destruct (accepted p).
      * rewrite <- (app_assoc h0 extra). rewrite IH by exact Hl.
        rewrite (app_assoc h0 extra). rewrite !length_app. cbn [length].
        rewrite <- !app_assoc. cbn [app].
        rewrite Nat.add_1_r.
        reflexivity.
      * rewrite <- (app_assoc h0 extra). rewrite IH by exact Hl.
        rewrite (app_assoc h0 extra). rewrite !length_app. cbn [length].
        rewrite <- !app_assoc. cbn [app].
        rewrite Nat.add_1_r.
        reflexivity.
    + apply lookup_ge_None in Hk.
      rewrite (drop_ge batch k) by exact Hk.
      rewrite IH by exact Hl.
      rewrite (drop_ge batch (S k)) by lia.
      destruct l; reflexivity.
Qed.

Lemma accepted_refs_lookup (pairs : list (loc * prediction)) (pre : heap) (h0 : heap) :
  map (fun r' => (pre ++ map (fun rp => annotate rp.2 (h0 !!! rp.1)) pairs) !!! r')
      (accepted_refs (length pre) pairs)
  = map (fun rp => annotate rp.2 (h0 !!! rp.1)) (List.filter (fun rp => accepted rp.2) pairs).
Proof.
  revert pre. induction pairs as [|rp pairs IH]; intros pre; cbn [accepted_refs map List.filter].
  - reflexivity.
  - assert (Htail :
      map (fun r' => (pre ++ annotate rp.2 (h0 !!! rp.1)
                         :: map (fun rp => annotate rp.2 (h0 !!! rp.1)) pairs) !!! r')
          (accepted_refs (S (length pre)) pairs)
      = map (fun rp => annotate rp.2 (h0 !!! rp.1))
            (List.filter (fun rp => accepted rp.2) pairs)).
    { specialize (IH (pre ++ [annotate rp.2 (h0 !!! rp.1)])).
      rewrite length_app in IH. cbn [length] in IH.
      replace (length pre + 1) with (S (length pre)) in IH by lia.
      rewrite <- IH. apply map_ext. intros r'. rewrite <- app_assoc. reflexivity. }
    destruct (accepted rp.2); cbn [app map].
    + rewrite Htail. f_equal.
      rewrite lookup_total_app_r by lia. rewrite Nat.sub_diag. reflexivity.
    + exact Htail.
Qed.

Lemma accepted_refs_bounds (pairs : list (loc * prediction)) (base : nat) :
  Forall (fun r' => base <= r' < base + length pairs) (accepted_refs base pairs).
Proof.
  revert base. induction pairs as [|rp pairs IH]; intros base; cbn [accepted_refs].
  - constructor.
  - apply Forall_app. split.
    + destruct (accepted rp.2); constructor; [simpl; lia | constructor].
    + eapply Forall_impl; [apply IH|]. simpl. intros; lia.
Qed.

Lemma accepted_refs_length (pairs : list (loc * prediction)) (base : nat) :
  length (accepted_refs base pairs) = length (List.filter (fun rp => accepted rp.2) pairs).
Proof.
  revert base. induction pairs as [|rp pairs IH]; intros base; cbn [accepted_refs List.filter].
  - reflexivity.
  - rewrite length_app, IH. destruct (accepted rp.2); reflexivity.
Qed.

(** The result of [classify_news] on a 200 response. *)
Lemma classify_news_200 (news_list : list loc) (h : heap) (batch : list prediction) :
  live h news_list ->
  classifier_post net (titles_of h news_list) = ClassifierResponse 200 batch ->
  classify_news net news_list h
  = (accepted_refs (length h) (zip news_list batch),
     h ++ map (fun rp => annotate rp.2 (h !!! rp.1)) (zip news_list batch)).
Proof.
  intros Hlive Hpost. unfold classify_news.
  destruct news_list as [|r l] eqn:El.
  - simpl. rewrite app_nil_r. reflexivity.
  - rewrite <- El in *. fold (titles_of h news_list). rewrite Hpost. simpl Z.eqb. cbv iota.
    unfold enumerate.
    pose proof (classify_fold batch h news_list 0 [] [] Hlive) as H.
    rewrite app_nil_r in H. rewrite drop_0 in H. exact H.
Qed.

(** The result of [classify_news] when the classifier fails. *)
Lemma classify_news_failure (news_list : list loc) (h : heap) :
  live h news_list ->
  classifier_failure (classifier_post net (titles_of h news_list)) ->
  classify_news net news_list h
  = (seq (length h) (length news_list),
     h ++ map (fun r => set_classification fallback_classification (h !!! r)) news_list).
Proof.
  intros Hlive Hfail. unfold classify_news.
  destruct news_list as [|r l] eqn:El.
  - simpl. rewrite app_nil_r. reflexivity.
  - rewrite <- El in *. fold (titles_of h news_list).
    destruct (classifier_post net (titles_of h news_list)) as [code batch| | | |];
      try (apply _create_fallback_results_spec; exact Hlive).
    simpl in Hfail. apply Z.eqb_neq in Hfail. rewrite Hfail.
    apply (_create_fallback_results_spec news_list h Hlive).
Qed.

End ClassifierFacts.

Lemma lookup_total_map {A} `{!Inhabited B} (f : A -> B) (l : list A) (i : nat) (x : A) :
  l !! i = Some x -> map f l !!! i = f x.
Proof.
  intros H. apply list_lookup_total_correct.
  change (map f l) with (f <$> l). rewrite list_lookup_fmap, H. reflexivity.
Qed.

Lemma in_zip_lookup {A B} (l : list A) (k : list B) (x : A) (y : B) :
  In (x, y) (zip l k) <-> exists i, l !! i = Some x /\ k !! i = Some y.
Proof.
  rewrite <- list_elem_of_In. split.
  - intros (i & x' & y' & [= <- <-] & Hx & Hy)%elem_of_lookup_zip_with. eauto.
  - intros (i & Hx & Hy). apply elem_of_lookup_zip_with. exists i, x, y. eauto.
Qed.

(** C3. When the classifier answers with a status other than 200 (every
    non-2xx status is one) or the request raises a connection error, a
    timeout, another network error or any other exception, [classify_news]
    returns one item per input item, in input order, each a copy of the
    input item annotated with the label "important" and the confidence
    0.7; the output is as long as the input. *)
Theorem classify_news_fail_open (net : network) (news_list : list loc) (h : heap) :
  live h news_list ->
  classifier_failure (classifier_post net (titles_of h news_list)) ->
  let out := (classify_news net news_list h).1 in
  let h' := (classify_news net news_list h).2 in
  length out = length news_list
  /\ (forall i r, news_list !! i = Some r ->
        exists r', out !! i = Some r'
          /\ h' !!! r' = set_classification fallback_classification (h !!! r)
          /\ same_but_classification (h !!! r) (h' !!! r')
          /\ classification (h' !!! r')
             = Some (Classification.mk (Some (py "important")) (Some float_0_7))).
Proof.
  intros Hlive Hfail out h'. subst out h'.
  rewrite (classify_news_failure net news_list h Hlive Hfail). cbn [fst snd].
  split; [apply length_seq|].
  intros i r Hi.
  assert (Hlt : i < length news_list) by (eapply lookup_lt_Some; exact Hi).
  exists (length h + i).
  assert (E : (h ++ map (fun r0 => set_classification fallback_classification (h !!! r0))
                      news_list) !!! (length h + i)
              = set_classification fallback_classification (h !!! r)).
  { rewrite lookup_total_app_r by lia.
    replace (length h + i - length h) with i by lia.
    rewrite (lookup_total_map _ _ _ _ Hi). reflexivity. }
  split; [apply lookup_seq_lt; exact Hlt|].
  split; [exact E|]. rewrite E. split; [repeat split | reflexivity].
Qed.

Lemma classify_news_fail_open_witness :
  let h := [Sample.item "크래프톤" "크래프톤 신작 출시" "a";
            Sample.item "넷마블" "넷마블 실적 발표" "b";
            Sample.item "엔씨소프트" "엔씨소프트 주주총회 개최" "c";
            Sample.item "펄어비스" "펄어비스 신규 투자" "d";
            Sample.item "위메이드" "위메이드 위믹스 상장" "e"] in
  let news_list := [0; 1; 2; 3; 4] in
  live h news_list
  /\ classifier_post Sample.net_down (titles_of h news_list) = ClassifierResponse 500 []
  /\ length (classify_news Sample.net_down news_list h).1 = 5.
Proof.
  intros h news_list.
  assert (Hlive : live h news_list) by (repeat constructor).
  assert (Hfail : classifier_failure (classifier_post Sample.net_down (titles_of h news_list)))
    by (simpl; discriminate).
  split; [exact Hlive|]. split; [reflexivity|].
  exact (proj1 (classify_news_fail_open Sample.net_down news_list h Hlive Hfail)).
Defined.

Lemma map_lookup_Some {A B} (f : A -> B) (l : list A) (j : nat) (y : B) :
  map f l !! j = Some y -> exists x, l !! j = Some x /\ f x = y.
Proof.
  revert j. induction l as [|a l IH]; intros [|j]; simpl; try discriminate.
  - intros [= <-]. exists a. split; reflexivity.
  - apply IH.
Qed.

Lemma map_lookup {A B} (f : A -> B) (l : list A) (j : nat) (x : A) :
  l !! j = Some x -> map f l !! j = Some (f x).
Proof.
  revert j. induction l as [|a l IH]; intros [|j]; simpl; try discriminate.
  - intros [= <-]. reflexivity.
  - apply IH.
Qed.

(** C4. On a 200 response [classify_news] pairs entry [i] of the response
    with item [i] of the input and keeps exactly the items whose entry has
    a confidence of at least 0.6, in order.  The record returned for a
    kept item is a copy of the item in every key but the classification,
    and its classification holds the label and the confidence of the
    item's own entry.  An item whose index has no entry because the
    response is shorter is dropped, without fallback annotation. *)
Theorem classify_news_positional (net : network) (news_list : list loc) (h : heap)
    (batch_results : list prediction) :
  live h news_list ->
  classifier_post net (titles_of h news_list) = ClassifierResponse 200 batch_results ->
  let out := (classify_news net news_list h).1 in
  let h' := (classify_news net news_list h).2 in
  map (fun r' => h' !!! r') out = classified_by_position h news_list batch_results
  /\ (forall x, In x (map (fun r' => h' !!! r') out) <->
        exists i r p, news_list !! i = Some r /\ batch_results !! i = Some p
          /\ (float_0_6 <= default 0 (p_confidence p))%Q
          /\ x = set_classification
                   (Classification.mk (p_label p) (p_confidence p)) (h !!! r))
  /\ length out <= length batch_results
  /\ map (fun r' => h' !!! r') out
     = classified_by_position h (take (length batch_results) news_list) batch_results
  /\ (forall j r p,
        List.filter (fun rp => accepted rp.2) (zip news_list batch_results) !! j
        = Some (r, p) ->
        exists r' c,
          out !! j = Some r'
          /\ classification (h' !!! r') = Some c
          /\ Classification.label c = p_label p
          /\ Classification.confidence c = p_confidence p
          /\ same_but_classification (h !!! r) (h' !!! r'))
  /\ (forall r', In r' out ->
        exists i r p c,
          news_list !! i = Some r /\ batch_results !! i = Some p
          /\ (float_0_6 <= default 0 (p_confidence p))%Q
          /\ classification (h' !!! r') = Some c
          /\ Classification.label c = p_label p
          /\ Classification.confidence c = p_confidence p
          /\ same_but_classification (h !!! r) (h' !!! r')).
Proof.
  intros Hlive Hpost out h'. subst out h'.
  rewrite (classify_news_200 net news_list h batch_results Hlive Hpost). cbn [fst snd].
  pose proof (accepted_refs_lookup (zip news_list batch_results) h h) as Hmap.
  split; [exact Hmap|]. split; [|split; [|split; [|split]]].
  - intros x. rewrite Hmap. rewrite in_map_iff. split.
    + intros ([r p] & <- & Hin). apply filter_In in Hin as [Hin Hacc].
      apply in_zip_lookup in Hin as (i & Hr & Hp).
      exists i, r, p. repeat split; try assumption.
      apply Qle_bool_iff. exact Hacc.
    + intros (i & r & p & Hr & Hp & Hacc & ->).
      exists (r, p). split; [reflexivity|]. apply filter_In. split.
      * apply in_zip_lookup. eauto.
      * apply Qle_bool_iff. exact Hacc.
  - rewrite accepted_refs_length.
    etransitivity; [apply filter_length_le|].
    rewrite length_zip_with. lia.
  - rewrite Hmap. unfold classified_by_position.
    rewrite (zip_with_take_l pair news_list batch_results) at 1. reflexivity.
  - intros j r p Hj.
    apply (map_lookup (fun rp => annotate rp.2 (h !!! rp.1))) in Hj.
    rewrite <- Hmap in Hj. apply map_lookup_Some in Hj as (r' & Hr' & Hrec).
    cbn [fst snd] in Hrec.
    exists r', (Classification.mk (p_label p) (p_confidence p)).
    split; [exact Hr'|]. rewrite Hrec.
    split; [reflexivity|]. split; [reflexivity|]. split; [reflexivity|].
    repeat split.
  - intros r' Hin. apply list_elem_of_In, list_elem_of_lookup in Hin as [j Hj].
    pose proof (map_lookup
      (fun r' => (h ++ map (fun rp => annotate rp.2 (h !!! rp.1))
                         (zip news_list batch_results)) !!! r') _ _ _ Hj) as Hrec.
    rewrite Hmap in Hrec. apply map_lookup_Some in Hrec as ([r p] & Hrp & Hrec).
    cbn [fst snd] in Hrec.
    assert (Hin : In (r, p) (List.filter (fun rp => accepted rp.2)
                               (zip news_list batch_results))).
    { apply list_elem_of_In, list_elem_of_lookup. eauto. }
    apply filter_In in Hin as [Hin Hacc]. cbn [snd] in Hacc.
    apply in_zip_lookup in Hin as (i & Hr & Hp).
    exists i, r, p, (Classification.mk (p_label p) (p_confidence p)).
    split; [exact Hr|]. split; [exact Hp|].
    split; [apply Qle_bool_iff; exact Hacc|]. rewrite <- Hrec.
    split; [reflexivity|]. split; [reflexivity|]. split; [reflexivity|].
    repeat split.
Qed.

Lemma classify_news_positional_witness :
  let h := [Sample.item "크래프톤" "크래프톤 신작 출시" "a";
            Sample.item "넷마블" "넷마블 실적 발표" "b";
            Sample.item "엔씨소프트" "엔씨소프트 주주총회 개최" "c"] in
  let news_list := [0; 1; 2] in
  let batch := [mkPrediction (Some (py "important")) (Some (7 # 8)%Q);
                mkPrediction (Some (py "trivial")) (Some (1 # 4)%Q)] in
  live h news_list
  /\ classifier_post Sample.net_up (titles_of h news_list) = ClassifierResponse 200 batch
  /\ map (fun r' => (classify_news Sample.net_up news_list h).2 !!! r')
         (classify_news Sample.net_up news_list h).1
     = [set_classification (Classification.mk (Some (py "important")) (Some (7 # 8)%Q))
          (h !!! 0)]
  /\ (exists r' c,
        (classify_news Sample.net_up news_list h).1 !! 0 = Some r'
        /\ classification ((classify_news Sample.net_up news_list h).2 !!! r') = Some c
        /\ Classification.label c = Some (py "important")
        /\ Classification.confidence c = Some (7 # 8)%Q
        /\ title ((classify_news Sample.net_up news_list h).2 !!! r')
           = Some (py "크래프톤 신작 출시")).
Proof.
  intros h news_list batch.
  assert (Hlive : live h news_list) by (repeat constructor).
  assert (Hpost : classifier_post Sample.net_up (titles_of h news_list)
                  = ClassifierResponse 200 batch) by reflexivity.
  split; [exact Hlive|]. split; [exact Hpost|].
  destruct (classify_news_positional Sample.net_up news_list h batch Hlive Hpost)
    as (Hmap & _ & _ & _ & Hpos & _).
  split; [rewrite Hmap; vm_compute; reflexivity|].
  destruct (Hpos 0 0 (mkPrediction (Some (py "important")) (Some (7 # 8)%Q)))
    as (r' & c & Hr' & Hc & Hl & Hconf & Hsame); [vm_compute; reflexivity|].
  exists r', c. split; [exact Hr'|]. split; [exact Hc|].
  split; [exact Hl|]. split; [exact Hconf|].
  destruct Hsame as (_ & Ht & _). rewrite Ht. reflexivity.
Defined.

(** ** Summarizer *)

Lemma infix_length : length (py " 관련 뉴스: ") = 8.
Proof. reflexivity. Qed.

Lemma announced_length : length (py " 관련 뉴스가 발표되었습니다.") = 16.
Proof. reflexivity. Qed.

Lemma contains_prefix (s rest : pystr) : Str.contains s (s ++ rest) = true.
Proof. apply (contains_app [] s rest). Qed.

Lemma contains_take_prefix (s rest : pystr) (n : nat) :
  length s <= n -> Str.contains s (take n (s ++ rest)) = true.
Proof. intros H. rewrite take_app_ge by exact H. apply contains_prefix. Qed.

Lemma nonempty_length (s : pystr) : 0 < length s -> s <> [].
Proof. destruct s; simpl; [lia | discriminate]. Qed.

(** What [_generate_fallback_summary] guarantees, branch by branch.  The
    summary is never empty and starts with the company name as far as the
    cut allows.  Only the branch for an item with a title and a
    description cuts the text to 100 characters; the two other branches
    return the company name followed by 8 characters and at most 70
    characters of the title, or by 16 characters, however long the company
    name is. *)
Lemma fallback_summary_bounds (n : news) :
  _generate_fallback_summary n <> []
  /\ (length (get_str (company n)) <= 100 ->
      Str.contains (get_str (company n)) (_generate_fallback_summary n) = true)
  /\ (get_str (title n) <> [] -> get_str (description n) <> [] ->
      length (_generate_fallback_summary n) <= 100)
  /\ (get_str (title n) <> [] -> get_str (description n) = [] ->
      length (_generate_fallback_summary n)
      = length (get_str (company n)) + 8 + Nat.min 70 (length (get_str (title n))))
  /\ (get_str (title n) = [] ->
      length (_generate_fallback_summary n) = length (get_str (company n)) + 16).
Proof.
  unfold _generate_fallback_summary, Str.slice_to.
  set (c := get_str (company n)). set (t := get_str (title n)).
  set (d := get_str (description n)).
  pose proof infix_length as Hi. pose proof announced_length as Ha.
  set (sep := py " 관련 뉴스: ") in *. set (ann := py " 관련 뉴스가 발표되었습니다.") in *.
  destruct (Str.truthy t) eqn:Ht; [destruct (Str.truthy d) eqn:Hd|]; cbn [andb].
  - (* title and description *)
    apply truthy_true_iff in Ht. apply truthy_true_iff in Hd.
    set (base := c ++ sep ++ take 30 t).
    assert (Hbase : 8 <= length base).
    { unfold base. rewrite !length_app. lia. }
    set (full := if (length base <? 80) && true then _ else base).
    assert (Hfull : exists rest, full = c ++ rest /\ 8 <= length rest).
    { unfold full. destruct ((length base <? 80) && true).
      - destruct (10 <? _)%Z.
        + unfold base. exists ((sep ++ take 30 t) ++ py " - "
            ++ take (Z.to_nat (100 - Z.of_nat (length (c ++ sep ++ take 30 t)) - 5)) d
            ++ py "..."). split.
          * rewrite <- !app_assoc. reflexivity.
          * rewrite !length_app. lia.
        + exists (sep ++ take 30 t). split; [reflexivity|]. rewrite length_app. lia.
      - exists (sep ++ take 30 t). split; [reflexivity|]. rewrite length_app. lia. }
    destruct Hfull as (rest & -> & Hrest).
    split; [|split; [|split; [|split]]].
    + apply nonempty_length. rewrite length_take, length_app. lia.
    + intros Hc. apply contains_take_prefix. exact Hc.
    + intros _ _. rewrite length_take. lia.
    + intros _ Hd'. destruct (Hd Hd').
    + intros Ht'. destruct (Ht Ht').
  - (* title only *)
    apply truthy_true_iff in Ht. apply truthy_false_iff in Hd.
    split; [|split; [|split; [|split]]].
    + apply nonempty_length. rewrite !length_app. lia.
    + intros _. apply contains_prefix.
    + intros _ Hd'. destruct (Hd' Hd).
    + intros _ _. rewrite !length_app, length_take. lia.
    + intros Ht'. destruct (Ht Ht').
  - (* no title *)
    apply truthy_false_iff in Ht.
    split; [|split; [|split; [|split]]].
    + apply nonempty_length. rewrite !length_app. lia.
    + intros _. apply contains_prefix.
    + intros Ht'. destruct (Ht' Ht).
    + intros Ht'. destruct (Ht' Ht).
    + intros _. rewrite !length_app. lia.
Qed.

(** C5. The claim does not hold of the code.  For an item with a title
    and no description [_generate_fallback_summary] returns the company
    name, 8 characters and up to 70 characters of the title, without the
    cut to 100 characters that its docstring announces and that the branch
    for an item with a description performs.  With a company name of 36
    characters, a title of 77 characters and no description the summary
    has 36 + 8 + 70 = 114 characters. *)
Theorem fallback_summary_exceeds_100 :
  let n := Sample.item "Sony Interactive Entertainment Korea"
             "Sony Interactive Entertainment Korea announces a new studio in Seoul for 2025"
             "" in
  get_str (title n) <> []
  /\ get_str (description n) = []
  /\ length (get_str (company n)) = 36
  /\ length (get_str (title n)) = 77
  /\ length (_generate_fallback_summary n) = 114
  /\ ~ fallback_summary_within_bounds n.
Proof.
  intros n.
  assert (Hlen : length (_generate_fallback_summary n) = 114) by (vm_compute; reflexivity).
  split; [vm_compute; discriminate|]. split; [reflexivity|].
  split; [reflexivity|]. split; [reflexivity|]. split; [exact Hlen|].
  intros (_ & Hle & _). rewrite Hlen in Hle. lia.
Qed.

Section SummaryFacts.

Variable rt : runtime.
Variable net : network.

(** C9 (as amended). [_format_published_date] returns the empty string for
    the empty input.  For every other input it renders, as YYYYMMDD, the
    date parsed from the text before the first plus sign, stripped of
    white space, when that text parses (form "Mon, 18 Dec 2023 14:30:00"),
    and the current date when it does not. *)
Theorem format_published_date_cases (pub_date : pystr) :
  (pub_date = [] -> _format_published_date rt pub_date = [])
  /\ (pub_date <> [] -> forall dt, strptime rt (date_text pub_date) = Some dt ->
        _format_published_date rt pub_date = strftime rt dt)
  /\ (pub_date <> [] -> strptime rt (date_text pub_date) = None ->
        _format_published_date rt pub_date = strftime rt (now rt)).
Proof.
  unfold _format_published_date, date_text. split; [|split].
  - intros ->. reflexivity.
  - intros Hne dt ->. apply truthy_true_iff in Hne. rewrite Hne. reflexivity.
  - intros Hne ->. apply truthy_true_iff in Hne. rewrite Hne. reflexivity.
Qed.

Lemma enumerate_from_length {A} (l : list A) (k : nat) :
  length (enumerate_from k l) = length l.
Proof. revert k. induction l as [|x l IH]; intros k; simpl; [|rewrite IH]; reflexivity. Qed.

Lemma enumerate_from_lookup {A} (l : list A) (k i : nat) (x : A) :
  l !! i = Some x -> enumerate_from k l !! i = Some (k + i, x).
Proof.
  revert k i. induction l as [|y l IH]; intros k [|i]; simpl; try discriminate.
  - intros [= ->]. rewrite Nat.add_0_r. reflexivity.
  - intros H. rewrite (IH (S k) i H). f_equal. f_equal. lia.
Qed.

Lemma summarize_fold (entries : list (nat * loc)) (acc : list Result.t) (h : heap) :
  fold_left (summarize_step rt net) entries (acc, h)
  = (acc ++ map (fun e => summarize_item rt net e.1 (h !!! e.2)) entries, h).
Proof.
  revert acc. induction entries as [|[i r] entries IH]; intros acc; cbn [fold_left map].
  - rewrite app_nil_r. reflexivity.
  - unfold summarize_step at 2. rewrite IH, <- app_assoc. reflexivity.
Qed.

(** [summarize_news] returns one result per item, built from the item at
    the same position, and writes nothing. *)
Lemma summarize_news_spec (news_list : list loc) (h : heap) :
  summarize_news rt net news_list h
  = (map (fun e => summarize_item rt net e.1 (h !!! e.2)) (enumerate news_list), h).
Proof. unfold summarize_news. rewrite summarize_fold. reflexivity. Qed.

Lemma summarize_news_length (news_list : list loc) (h : heap) :
  length (summarize_news rt net news_list h).1 = length news_list.
Proof.
  rewrite summarize_news_spec. cbn [fst]. rewrite length_map.
  apply enumerate_from_length.
Qed.

End SummaryFacts.

Lemma format_published_date_cases_witness :
  py "Mon, 18 Dec 2023 14:30:00 +0900" <> []
  /\ strptime Sample.rt (date_text (py "Mon, 18 Dec 2023 14:30:00 +0900"))
     = Some (mkDatetime 2023 12 18 14 30 0)
  /\ _format_published_date Sample.rt (py "Mon, 18 Dec 2023 14:30:00 +0900") = py "20231218"
  /\ py "yesterday" <> []
  /\ strptime Sample.rt (date_text (py "yesterday")) = None
  /\ _format_published_date Sample.rt (py "yesterday") = py "20240115".
Proof.
  destruct (format_published_date_cases Sample.rt (py "Mon, 18 Dec 2023 14:30:00 +0900"))
    as (_ & Hok & _).
  destruct (format_published_date_cases Sample.rt (py "yesterday")) as (_ & _ & Hfail).
  assert (H1 : py "Mon, 18 Dec 2023 14:30:00 +0900" <> []) by (vm_compute; discriminate).
  assert (H2 : strptime Sample.rt (date_text (py "Mon, 18 Dec 2023 14:30:00 +0900"))
               = Some (mkDatetime 2023 12 18 14 30 0)) by (vm_compute; reflexivity).
  assert (H3 : py "yesterday" <> []) by (vm_compute; discriminate).
  assert (H4 : strptime Sample.rt (date_text (py "yesterday")) = None)
    by (vm_compute; reflexivity).
  split; [exact H1|]. split; [exact H2|].
  split; [rewrite (Hok H1 _ H2); vm_compute; reflexivity|].
  split; [exact H3|]. split; [exact H4|].
  rewrite (Hfail H3 H4). vm_compute. reflexivity.
Defined.

(** C9 (as stated) fails: the empty input does not parse, yet the result is
    the empty string and not the current date. *)
Lemma format_published_date_empty_input :
  strptime Sample.rt (date_text []) = None
  /\ _format_published_date Sample.rt [] = []
  /\ strftime Sample.rt (now Sample.rt) = py "20240115"
  /\ ~ substitutes_today Sample.rt [].
Proof.
  assert (Hnone : strptime Sample.rt (date_text []) = None) by reflexivity.
  split; [exact Hnone|]. split; [reflexivity|]. split; [vm_compute; reflexivity|].
  intros H. specialize (H Hnone). vm_compute in H. discriminate.
Qed.

(** ** The stages and the records they receive *)

Lemma accepted_refs_elem (pairs : list (loc * prediction)) (base r' : nat) :
  In r' (accepted_refs base pairs) ->
  exists j rp, r' = base + j /\ pairs !! j = Some rp.
Proof.
  revert base. induction pairs as [|rp pairs IH]; intros base; cbn [accepted_refs].
  - intros [].
  - intros Hin. apply in_app_or in Hin as [Hin|Hin].
    + destruct (accepted rp.2); [|destruct Hin].
      destruct Hin as [<-|[]]. exists 0, rp. split; [lia | reflexivity].
    + apply IH in Hin as (j & rp' & -> & Hj). exists (S j), rp'. split; [lia | exact Hj].
Qed.

Lemma same_but_classification_set (c : Classification.t) (n : news) :
  same_but_classification n (set_classification c n).
Proof. repeat split. Qed.

(** Whatever the classifier answers, [classify_news] only adds records to
    the store, and every record it returns is one of the added ones: a
    copy of an input record with a classification. *)
Lemma classify_news_copies (net : network) (news_list : list loc) (h : heap) :
  live h news_list ->
  exists added,
    (classify_news net news_list h).2 = h ++ added
    /\ forall r', In r' (classify_news net news_list h).1 ->
         length h <= r'
         /\ exists r c, In r news_list
              /\ (h ++ added) !!! r' = set_classification c (h !!! r).
Proof.
  intros Hlive.
  destruct (classifier_post net (titles_of h news_list)) as [code batch| | | |] eqn:Hpost.
  1: destruct (Z.eq_dec code 200%Z) as [->|Hcode].
  1: { rewrite (classify_news_200 net news_list h batch Hlive Hpost). cbn [fst snd].
       eexists. split; [reflexivity|]. intros r' Hin.
       apply accepted_refs_elem in Hin as (j & [r p] & -> & Hj).
       split; [lia|]. exists r, (Classification.mk (p_label p) (p_confidence p)). split.
       - assert (Hz : In (r, p) (zip news_list batch)).
         { apply list_elem_of_In, list_elem_of_lookup. eauto. }
         apply in_zip_lookup in Hz as (i & Hi & _).
         apply list_elem_of_In, list_elem_of_lookup. eauto.
       - rewrite lookup_total_app_r by lia.
         replace (length h + j - length h) with j by lia.
         rewrite (lookup_total_map _ _ _ _ Hj). reflexivity. }
  all: assert (Hfail : classifier_failure (classifier_post net (titles_of h news_list)))
         by (rewrite Hpost; simpl; auto).
  all: rewrite (classify_news_failure net news_list h Hlive Hfail); cbn [fst snd].
  all: eexists; (split; [reflexivity|]); intros r' Hin.
  all: apply in_seq in Hin as [Hlo Hhi]; (split; [exact Hlo|]).
  all: destruct (lookup_lt_is_Some_2 news_list (r' - length h)) as [r Hr]; [lia|].
  all: exists r, fallback_classification; split;
         [apply list_elem_of_In, list_elem_of_lookup; eauto|].
  all: rewrite lookup_total_app_r by lia.
  all: rewrite (lookup_total_map _ _ _ _ Hr); reflexivity.
Qed.

(** Whatever the summarizer answers, the result takes these fields from
    the item. *)
Lemma summarize_item_carries (rt : runtime) (net : network) (i : nat) (n : news) :
  Result.corp (summarize_item rt net i n) = company n
  /\ Result.original_title (summarize_item rt net i n) = title n
  /\ Result.confidence (summarize_item rt net i n) = confidence_of n
  /\ Result.matched_keywords (summarize_item rt net i n) = default [] (matched_keywords n)
  /\ Result.news_url (summarize_item rt net i n) = get_str (link n).
Proof.
  unfold summarize_item, _create_fallback_result.
  destruct (summarizer_post net i _ _) as [code body| |]; [|repeat split..].
  destruct (code =? 200)%Z; [|repeat split].
  destruct (negb _ || _); repeat split.
Qed.

(** C8 (as amended). [classify_news] and [summarize_news] never write into
    the records they receive: the classifier returns new records, each a
    copy of an input record that differs from it in the classification
    only, and the summarizer leaves the store as it is and builds one new
    result per record, which carries its company, title, confidence,
    matched keywords and link.  [remove_similar_titles] writes
    nothing either and returns a subsequence of the very records it
    received.  [filter_by_keywords] writes into the records it receives: it
    sets the matched keywords of every item it keeps, leaves every other
    field of every record as it was, leaves the records it drops
    untouched, and returns the kept records themselves. *)
Theorem stages_and_received_records (rt : runtime) (net : network)
    (self : KeywordFilterService) (news_list : list loc) (h : heap) :
  live h news_list ->
  (let out := (filter_by_keywords rt self news_list h).1 in
   let h' := (filter_by_keywords rt self news_list h).2 in
   length h' = length h
   /\ out `sublist_of` news_list
   /\ (forall r, same_but_keywords (h !!! r) (h' !!! r))
   /\ (forall r, In r out ->
         matched_keywords (h' !!! r) = Some (matching_keywords rt self (h !!! r)))
   /\ (forall r, ~ In r out -> h' !!! r = h !!! r))
  /\ remove_similar_titles rt news_list h `sublist_of` news_list
  /\ (let out := (classify_news net news_list h).1 in
      let h' := (classify_news net news_list h).2 in
      h `prefix_of` h'
      /\ leaves_inputs_unchanged h h' news_list
      /\ (forall r', In r' out ->
            length h <= r'
            /\ exists r, In r news_list /\ same_but_classification (h !!! r) (h' !!! r')))
  /\ (let out := (summarize_news rt net news_list h).1 in
      let h' := (summarize_news rt net news_list h).2 in
      h' = h
      /\ (forall i r, news_list !! i = Some r ->
            out !! i = Some (summarize_item rt net i (h !!! r)))
      /\ (forall i n,
            Result.corp (summarize_item rt net i n) = company n
            /\ Result.original_title (summarize_item rt net i n) = title n
            /\ Result.confidence (summarize_item rt net i n) = confidence_of n
            /\ Result.matched_keywords (summarize_item rt net i n)
                = default [] (matched_keywords n)
            /\ Result.news_url (summarize_item rt net i n) = get_str (link n))).
Proof.
  intros Hlive.
  assert (Hlt : forall r, In r news_list -> r < length h).
  { intros r Hr. unfold live in Hlive. rewrite Forall_forall in Hlive.
    apply Hlive, list_elem_of_In, Hr. }
  split; [|split; [|split]].
  - destruct (filter_by_keywords_output rt self news_list h) as (Hout & Hsub).
    destruct (filter_by_keywords_inv rt self news_list h) as (h' & E & Hinv).
    rewrite E in *. cbn [fst snd] in *.
    split; [apply (inv_length _ _ _ _ _ Hinv)|]. split; [exact Hsub|].
    split; [apply (inv_fields _ _ _ _ _ Hinv)|]. split.
    + intros r Hr. apply (inv_kept _ _ _ _ _ Hinv); [exact Hr|].
      apply Hlt. apply filter_In in Hr as [Hr _]. exact Hr.
    + apply (inv_rest _ _ _ _ _ Hinv).
  - apply remove_similar_titles_sublist.
  - destruct (classify_news_copies net news_list h Hlive) as (added & E & Hout).
    cbv zeta. rewrite E in *. split; [exists added; reflexivity|]. split.
    + intros r Hr. apply lookup_total_app_l, Hlt, Hr.
    + intros r' Hin. destruct (Hout r' Hin) as (Hge & r & c & Hr & Hc).
      split; [exact Hge|]. exists r. split; [exact Hr|].
      rewrite Hc. apply same_but_classification_set.
  - cbv zeta. rewrite summarize_news_spec. cbn [fst snd]. split; [reflexivity|]. split.
    + intros i r Hi. unfold enumerate.
      change (map ?f ?l) with (f <$> l).
      rewrite list_lookup_fmap, (enumerate_from_lookup news_list 0 i r Hi). reflexivity.
    + intros i n. apply summarize_item_carries.
Qed.

Lemma stages_and_received_records_witness :
  let h := [Sample.item "크래프톤" "크래프톤 신작 출시" "a";
            Sample.item "넷마블" "넷마블 야유회" "b"] in
  live h [0; 1]
  /\ (filter_by_keywords Sample.rt keyword_filter_service [0; 1] h).1 = [0]
  /\ same_but_keywords (h !!! 0)
       ((filter_by_keywords Sample.rt keyword_filter_service [0; 1] h).2 !!! 0)
  /\ (filter_by_keywords Sample.rt keyword_filter_service [0; 1] h).2 !!! 1 = h !!! 1
  /\ leaves_inputs_unchanged h (classify_news Sample.net_up [0; 1] h).2 [0; 1]
  /\ (summarize_news Sample.rt Sample.net_down [0; 1] h).2 = h.
Proof.
  intros h.
  assert (Hlive : live h [0; 1]) by (repeat constructor).
  destruct (stages_and_received_records Sample.rt Sample.net_up keyword_filter_service
              [0; 1] h Hlive) as (Hf & _ & Hc & _).
  destruct (stages_and_received_records Sample.rt Sample.net_down keyword_filter_service
              [0; 1] h Hlive) as (_ & _ & _ & Hs).
  cbv zeta in Hf, Hc, Hs.
  destruct Hf as (_ & _ & Hfields & _ & Hrest).
  split; [exact Hlive|]. split; [vm_compute; reflexivity|].
  split; [apply Hfields|]. split.
  - apply Hrest. vm_compute. intros [H|[]]. discriminate.
  - split; [exact (proj1 (proj2 Hc)) | exact (proj1 Hs)].
Defined.

(** C8 (as stated) fails for the keyword filter: the record it keeps is not
    what it was before the call, its matched keywords have been set. *)
Lemma filter_by_keywords_writes_input :
  let h := [Sample.item "크래프톤" "크래프톤 신작 출시" "a"] in
  let h' := (filter_by_keywords Sample.rt keyword_filter_service [0] h).2 in
  matched_keywords (h !!! 0) = None
  /\ matched_keywords (h' !!! 0) = Some [py "신작"; py "출시"]
  /\ ~ leaves_inputs_unchanged h h' [0].
Proof.
  intros h h'. split; [reflexivity|]. split; [vm_compute; reflexivity|].
  intros H. specialize (H 0 (or_introl eq_refl)).
  apply (f_equal matched_keywords) in H. vm_compute in H. discriminate.
Qed.

(** ** Orchestrator *)

Lemma is_empty_true {A} (l : list A) : is_empty l = true <-> l = [].
Proof. destruct l; simpl; split; congruence. Qed.

Lemma fold_length_le {A B} (step : list A * heap -> B -> list A * heap)
    (entries : list B) (st : list A * heap) :
  (forall st x, length (step st x).1 <= S (length st.1)) ->
  length (fold_left step entries st).1 <= length st.1 + length entries.
Proof.
  intros Hstep. revert st. induction entries as [|x entries IH]; intros st; cbn [fold_left length].
  - lia.
  - specialize (IH (step st x)). specialize (Hstep st x). lia.
Qed.

Lemma filter_by_keywords_length (rt : runtime) (self : KeywordFilterService)
    (news_list : list loc) (h : heap) :
  length (filter_by_keywords rt self news_list h).1 <= length news_list.
Proof.
  destruct (filter_by_keywords_output rt self news_list h) as [_ H].
  apply sublist_length, H.
Qed.

Lemma remove_similar_titles_length (rt : runtime) (news_list : list loc) (h : heap) :
  length (remove_similar_titles rt news_list h) <= length news_list.
Proof. apply sublist_length, remove_similar_titles_sublist. Qed.

Lemma fallback_step_length (st : list loc * heap) (r : loc) :
  length (fallback_step st r).1 <= S (length st.1).
Proof. destruct st as [acc h]. simpl. rewrite length_app. simpl. lia. Qed.

Lemma classify_step_length (batch : list prediction) (st : list loc * heap) (e : nat * loc) :
  length (classify_step batch st e).1 <= S (length st.1).
Proof.
  destruct st as [acc h], e as [i r]. unfold classify_step.
  destruct (batch !! i) as [p|]; cbn [fst]; [|lia].
  unfold alloc. destruct (Qle_bool _ _); cbn [fst]; [rewrite length_app; simpl|]; lia.
Qed.

(** No assumption on the store is needed for the length. *)
Lemma classify_news_length (net : network) (news_list : list loc) (h : heap) :
  length (classify_news net news_list h).1 <= length news_list.
Proof.
  unfold classify_news. destruct news_list as [|r l] eqn:El; [simpl; lia|].
  rewrite <- El. clear El r l.
  assert (Hfb : length (fold_left fallback_step news_list ([], h)).1 <= length news_list).
  { apply (fold_length_le fallback_step news_list ([], h)), fallback_step_length. }
  destruct (classifier_post net _) as [code batch| | | |]; try exact Hfb.
  destruct (code =? 200)%Z; [|exact Hfb].
  pose proof (fold_length_le (classify_step batch) (enumerate news_list) ([], h)
                (classify_step_length batch)) as H.
  unfold enumerate in *. rewrite enumerate_from_length in H. exact H.
Qed.

Section OrchestratorFacts.

Variable rt : runtime.
Variable self : NewsPipelineService.

(** The handler's result: status "error", every count zero, no results. *)
Lemma pipeline_error_zero (e : pystr) :
  status (pipeline_error e) = error
  /\ total_collected (pipeline_error e) = 0
  /\ after_keyword_filter (pipeline_error e) = 0
  /\ after_deduplication (pipeline_error e) = Some 0
  /\ after_classification (pipeline_error e) = 0
  /\ final_summaries (pipeline_error e) = 0
  /\ results (pipeline_error e) = [].
Proof. repeat split. Qed.

(** An exception raised inside the body never leaves
    [process_news_pipeline]: the call returns the handler's result. *)
Lemma process_news_pipeline_catches (companies : list pystr) (h h' : heap) (e : pystr) :
  pipeline_body rt self companies h = (Raised e, h') ->
  process_news_pipeline rt self companies h = (pipeline_error e, h').
Proof. intros H. unfold process_news_pipeline, try_except. rewrite H. reflexivity. Qed.

(** The shapes of the result, whatever the services do: the handler's
    result, one of the four early returns, or the complete result. *)
Lemma process_news_pipeline_shapes (companies : list pystr) (h : heap) :
  let r := (process_news_pipeline rt self companies h).1 in
  (exists e, r = pipeline_error e)
  \/ (status r = success /\ results r = [] /\ total_collected r = 0
      /\ after_keyword_filter r = 0 /\ after_deduplication r = None
      /\ after_classification r = 0 /\ final_summaries r = 0)
  \/ (status r = success /\ results r = [] /\ 0 < total_collected r
      /\ after_keyword_filter r = 0 /\ after_deduplication r = Some 0
      /\ after_classification r = 0 /\ final_summaries r = 0)
  \/ (status r = success /\ results r = [] /\ 0 < total_collected r
      /\ 0 < after_keyword_filter r /\ after_deduplication r = Some 0
      /\ after_classification r = 0 /\ final_summaries r = 0)
  \/ (status r = success /\ results r = [] /\ 0 < total_collected r
      /\ 0 < after_keyword_filter r
      /\ (exists d, after_deduplication r = Some d /\ 0 < d)
      /\ after_classification r = 0 /\ final_summaries r = 0)
  \/ (status r = success /\ companies_processed r = Some companies
      /\ final_summaries r = length (results r)
      /\ 0 < after_classification r).
Proof.
  assert (Hpos : forall (A : Type) (l : list A), is_empty l = false -> 0 < length l).
  { intros A [|x l]; simpl; [discriminate | lia]. }
  unfold process_news_pipeline, try_except, pipeline_body, bind, lift, reads, ret.
  destruct (gather _ h) as [news_results h1].
  set (all_news := extend_all news_results).
  destruct (is_empty all_news) eqn:E1; cbn [fst].
  { right. left. repeat split. }
  destruct (keyword_filter self all_news h1) as [[kw|e] h2]; cbn [fst];
    [|left; eexists; reflexivity].
  destruct (is_empty kw) eqn:E2; cbn [fst].
  { right. right. left. repeat split. apply Hpos, E1. }
  destruct (is_empty (remove_similar_titles rt kw h2)) eqn:E3; cbn [fst].
  { right. right. right. left. repeat split; apply Hpos; assumption. }
  destruct (classifier self _ h2) as [[cl|e] h3]; cbn [fst];
    [|left; eexists; reflexivity].
  destruct (is_empty cl) eqn:E4; cbn [fst].
  { right. right. right. right. left. repeat split; try (apply Hpos; assumption).
    eexists. split; [reflexivity | apply Hpos, E3]. }
  destruct (summary self cl h3) as [[fin|e] h4]; cbn [fst];
    [|left; eexists; reflexivity].
  right. right. right. right. right. repeat split. apply Hpos, E4.
Qed.

(** C7, at the input that shows the defect.  With no company, or when no
    company yields any news, the call returns the first early result, and
    that result has no count for the deduplication stage, while every
    other return path writes one. *)
Theorem pipeline_empty_collection_result (h : heap) :
  (process_news_pipeline rt self [] h).1
  = mkPipelineResult success (py "수집된 뉴스가 없습니다.") 0 0 None 0 0 None []
  /\ after_deduplication (process_news_pipeline rt self [] h).1 = None
  /\ (forall e, after_deduplication (pipeline_error e) = Some 0)
  /\ after_deduplication
       (run_pipeline Sample.rt Sample.net_down [py "크래프톤"; py "넷마블"] []).1 = None.
Proof. repeat split. Qed.

End OrchestratorFacts.

(** C1. In every run of the pipeline the reported stage counts never
    increase along the stages: [final_summaries <= after_classification <=
    after_deduplication <= after_keyword_filter <= total_collected], where
    the count of the deduplication stage takes part whenever the result
    reports it; it is reported in every run that reaches the summarizer.
    The summaries are as many as the classified items, since
    [summarize_news] returns exactly one result per item, while
    [filter_by_keywords], [remove_similar_titles] and [classify_news] each
    return at most as many items as they receive. *)
Theorem pipeline_counts_monotone (rt : runtime) (net : network)
    (companies : list pystr) (h : heap) :
  let r := (run_pipeline rt net companies h).1 in
  final_summaries r = after_classification r
  /\ after_classification r <= after_keyword_filter r
  /\ after_keyword_filter r <= total_collected r
  /\ (forall d, after_deduplication r = Some d ->
        after_classification r <= d /\ d <= after_keyword_filter r)
  /\ (companies_processed r <> None ->
        (exists d, after_deduplication r = Some d)
        /\ final_summaries r = length (results r))
  /\ (forall self l h0, length (filter_by_keywords rt self l h0).1 <= length l)
  /\ (forall l h0, length (remove_similar_titles rt l h0) <= length l)
  /\ (forall l h0, length (classify_news net l h0).1 <= length l)
  /\ (forall l h0, length (summarize_news rt net l h0).1 = length l).
Proof.
  cbv zeta.
  split; [|split; [|split; [|split; [|split; [|split; [|split; [|split]]]]]]];
    try (intros; first [ apply filter_by_keywords_length
                       | apply remove_similar_titles_length
                       | apply classify_news_length
                       | apply summarize_news_length ]).
  all: unfold run_pipeline, process_news_pipeline, try_except, pipeline_body,
         news_pipeline_service; cbn [naver_service keyword_filter classifier summary];
         unfold bind, lift, reads, ret.
  all: destruct (gather _ h) as [news_results h1].
  all: set (all_news := extend_all news_results).
  all: destruct (is_empty all_news); cbn [fst];
         [early_return|].
  all: pose proof (filter_by_keywords_length rt keyword_filter_service all_news h1) as Hkw.
  all: destruct (filter_by_keywords rt keyword_filter_service all_news h1) as [kw h2];
         cbn [fst] in Hkw.
  all: destruct (is_empty kw); cbn [fst];
         [early_return|].
  all: pose proof (remove_similar_titles_length rt kw h2) as Hdd.
  all: destruct (is_empty (remove_similar_titles rt kw h2)); cbn [fst];
         [early_return|].
  all: pose proof (classify_news_length net (remove_similar_titles rt kw h2) h2) as Hcl.
  all: destruct (classify_news net (remove_similar_titles rt kw h2) h2) as [cl h3];
         cbn [fst] in Hcl.
  all: destruct (is_empty cl); cbn [fst];
         [early_return|].
  all: pose proof (summarize_news_length rt net cl h3) as Hsm.
  all: destruct (summarize_news rt net cl h3) as [fin h4]; cbn [fst] in Hsm.
  all: simpl.
  - exact Hsm.
  - lia.
  - lia.
  - intros d [= <-]. lia.
  - intros _. split; [eexists; reflexivity | reflexivity].
Qed.

(** * Further properties *)

(** ** News source adapter *)

Lemma tag_free_no_close (seg : pystr) (opened : bool) :
  ~ In 62%N seg -> tag_free_from opened seg = true.
Proof.
  revert opened. induction seg as [|c seg IH]; intros opened Hno; simpl; [reflexivity|].
  assert (Hc : c <> 62%N) by (intros ->; apply Hno; left; reflexivity).
  assert (Hseg : ~ In 62%N seg) by (intros H; apply Hno; right; exact H).
  apply N.eqb_neq in Hc. rewrite Hc.
  destruct (c =? 60)%N; [apply IH; exact Hseg|].
  destruct (c =? 10)%N; apply IH; exact Hseg.
Qed.

Lemma tag_free_line (seg rest : pystr) (opened : bool) :
  ~ In 62%N seg ->
  tag_free_from opened (seg ++ 10%N :: rest) = tag_free_from false rest.
Proof.
  revert opened. induction seg as [|c seg IH]; intros opened Hno; simpl; [reflexivity|].
  assert (Hc : c <> 62%N) by (intros ->; apply Hno; left; reflexivity).
  assert (Hseg : ~ In 62%N seg) by (intros H; apply Hno; right; exact H).
  apply N.eqb_neq in Hc. rewrite Hc.
  destruct (c =? 60)%N; [apply IH; exact Hseg|].
  destruct (c =? 10)%N; apply IH; exact Hseg.
Qed.

(** What [clean_from] returns holds no tag. *)
Lemma clean_from_tag_free (text : pystr) :
  tag_free_from false (clean_from None text) = true
  /\ forall p, ~ In 62%N p -> tag_free_from false (clean_from (Some p) text) = true.
Proof.
  induction text as [|c text [IHn IHs]]; split.
  - reflexivity.
  - intros p Hp. simpl. apply tag_free_no_close. rewrite <- in_rev. exact Hp.
  - simpl. destruct (c =? 60)%N eqn:E60.
    + apply IHs. intros [H|[]]. apply N.eqb_eq in E60. subst c. discriminate.
    + simpl. rewrite E60. destruct (c =? 62)%N; [exact IHn|].
      destruct (c =? 10)%N; exact IHn.
  - intros p Hp. simpl. destruct (c =? 62)%N eqn:E62; [exact IHn|].
    destruct (c =? 10)%N eqn:E10.
    + apply N.eqb_eq in E10. subst c.
      rewrite tag_free_line by (rewrite <- in_rev; exact Hp). exact IHn.
    + apply IHs. intros [H|H]; [|exact (Hp H)].
      apply N.eqb_neq in E62. congruence.
Qed.

(** A text that holds no tag is returned as it is. *)
Lemma clean_from_fixed (text : pystr) :
  (tag_free_from false text = true -> clean_from None text = text)
  /\ forall p, tag_free_from true text = true ->
       clean_from (Some p) text = rev p ++ text.
Proof.
  induction text as [|c text [IHn IHs]]; split.
  - reflexivity.
  - intros p _. simpl. rewrite app_nil_r. reflexivity.
  - simpl. destruct (c =? 60)%N eqn:E60.
    + intros H. exact (IHs [c] H).
    + destruct (c =? 62)%N; [intros H; rewrite (IHn H); reflexivity|].
      destruct (c =? 10)%N; intros H; rewrite (IHn H); reflexivity.
  - intros p. simpl. destruct (c =? 60)%N eqn:E60.
    + apply N.eqb_eq in E60. subst c. simpl.
      intros H. etransitivity; [exact (IHs (60%N :: p) H)|].
      simpl. rewrite <- app_assoc. reflexivity.
    + destruct (c =? 62)%N; [discriminate|].
      destruct (c =? 10)%N.
      * intros H. rewrite (IHn H). reflexivity.
      * intros H. etransitivity; [exact (IHs (c :: p) H)|].
        simpl. rewrite <- app_assoc. reflexivity.
Qed.

Lemma clean_from_sublist (text : pystr) :
  clean_from None text `sublist_of` text
  /\ forall p, clean_from (Some p) text `sublist_of` rev p ++ text.
Proof.
  induction text as [|c text [IHn IHs]]; split.
  - constructor.
  - intros p. simpl. rewrite app_nil_r. reflexivity.
  - simpl. destruct (c =? 60)%N.
    + apply (IHs [c]).
    + apply sublist_skip, IHn.
  - intros p. simpl. destruct (c =? 62)%N.
    + etransitivity; [apply IHn|]. apply sublist_inserts_l, sublist_cons. reflexivity.
    + destruct (c =? 10)%N.
      * apply sublist_app; [reflexivity|]. apply sublist_skip, IHn.
      * specialize (IHs (c :: p)). simpl in IHs. rewrite <- app_assoc in IHs. exact IHs.
Qed.

Lemma has_tag_not_free (s : pystr) : has_tag s -> tag_free_from false s = false.
Proof.
  intros (pre & mid & post & -> & Hmid).
  assert (Hopen : tag_free_from true (mid ++ 62%N :: post) = false).
  { clear pre. induction mid as [|c mid IH]; simpl; [reflexivity|].
    assert (Hc : c <> 10%N) by (intros ->; apply Hmid; left; reflexivity).
    assert (Hm : ~ In 10%N mid) by (intros H; apply Hmid; right; exact H).
    apply N.eqb_neq in Hc. rewrite Hc.
    destruct (c =? 60)%N; [apply IH, Hm|].
    destruct (c =? 62)%N; [reflexivity | apply IH, Hm]. }
  assert (Hany : forall o, tag_free_from o (60%N :: mid ++ 62%N :: post) = false)
    by (intros o; exact Hopen).
  clear Hopen Hmid.
  assert (Hall : forall o, tag_free_from o (pre ++ 60%N :: mid ++ 62%N :: post) = false).
  { induction pre as [|c pre IH]; intros o; [apply Hany|].
    simpl. destruct (c =? 60)%N; [apply IH|].
    destruct (c =? 62)%N; [destruct o; [reflexivity | apply IH]|].
    destruct (c =? 10)%N; apply IH. }
  apply Hall.
Qed.

Lemma not_free_has_tag (s : pystr) (opened : bool) :
  tag_free_from opened s = false ->
  (opened = true /\ exists mid post, s = mid ++ 62%N :: post /\ ~ In 10%N mid)
  \/ has_tag s.
Proof.
  assert (Hcons : forall c t, has_tag t -> has_tag (c :: t)).
  { intros c t (pre & mid & post & -> & Hmid). exists (c :: pre), mid, post.
    split; [reflexivity | exact Hmid]. }
  revert opened. induction s as [|c s IH]; intros opened; simpl; [discriminate|].
  destruct (c =? 60)%N eqn:E60.
  - apply N.eqb_eq in E60. subst c. intros H. right.
    destruct (IH true H) as [(_ & mid & post & -> & Hmid)|Ht].
    + exists [], mid, post. split; [reflexivity | exact Hmid].
    + apply Hcons, Ht.
  - destruct (c =? 62)%N eqn:E62.
    + apply N.eqb_eq in E62. subst c. destruct opened.
      * intros _. left. split; [reflexivity|]. exists [], s. split; [reflexivity | intros []].
      * intros H. right. destruct (IH false H) as [(Hf & _)|Ht]; [discriminate|].
        apply Hcons, Ht.
    + destruct (c =? 10)%N eqn:E10.
      * intros H. right. destruct (IH false H) as [(Hf & _)|Ht]; [discriminate|].
        apply Hcons, Ht.
      * intros H. destruct (IH opened H) as [(Ho & mid & post & -> & Hmid)|Ht].
        -- left. split; [exact Ho|]. exists (c :: mid), post. split; [reflexivity|].
           intros [Hc|Hc]; [|exact (Hmid Hc)]. apply N.eqb_neq in E10. congruence.
        -- right. apply Hcons, Ht.
Qed.

(** X1. [_clean_html_tags] returns a text without any tag (no opening
    bracket is followed by a closing bracket on the same line); what it
    returns is a subsequence of the text, the whole text when the text
    holds no tag, so that cleaning twice is cleaning once. *)
Theorem clean_html_tags_removes_tags (text : pystr) :
  ~ has_tag (_clean_html_tags text)
  /\ _clean_html_tags text `sublist_of` text
  /\ (~ has_tag text -> _clean_html_tags text = text)
  /\ _clean_html_tags (_clean_html_tags text) = _clean_html_tags text.
Proof.
  unfold _clean_html_tags.
  pose proof (proj1 (clean_from_tag_free text)) as Hfree.
  split; [|split; [|split]].
  - intros Ht. apply has_tag_not_free in Ht. congruence.
  - apply clean_from_sublist.
  - intros Hno. apply clean_from_fixed.
    destruct (tag_free_from false text) eqn:E; [reflexivity|].
    destruct (not_free_has_tag text false E) as [(Hf & _)|Ht]; [discriminate|].
    destruct (Hno Ht).
  - apply clean_from_fixed. exact Hfree.
Qed.

Lemma clean_html_tags_removes_tags_witness :
  ~ has_tag (py "크래프톤 신작 < 출시") /\
  _clean_html_tags (py "크래프톤 신작 < 출시") = py "크래프톤 신작 < 출시".
Proof.
  assert (Hno : ~ has_tag (py "크래프톤 신작 < 출시")).
  { intros Ht. apply has_tag_not_free in Ht. vm_compute in Ht. discriminate. }
  split; [exact Hno|].
  destruct (clean_html_tags_removes_tags (py "크래프톤 신작 < 출시")) as (_ & _ & H & _).
  exact (H Hno).
Defined.

Lemma process_item_fold (company_name : pystr) (items : list raw_item)
    (acc : list loc) (h : heap) :
  fold_left (process_item company_name) items (acc, h)
  = (acc ++ seq (length h) (length items),
     h ++ map (collected_record company_name) items).
Proof.
  revert acc h. induction items as [|item items IH]; intros acc h; cbn [fold_left].
  - simpl. rewrite !app_nil_r. reflexivity.
  - unfold process_item at 2. unfold alloc.
    fold (collected_record company_name item).
    rewrite IH. rewrite length_app. cbn [length map seq].
    rewrite <- !app_assoc. cbn [app]. rewrite Nat.add_1_r. reflexivity.
Qed.

Lemma fetch_news_for_company_spec (net : network) (company_name : pystr) (h : heap) :
  fetch_news_for_company net company_name h
  = (seq (length h) (length (items_of (naver_get net company_name))),
     h ++ map (collected_record company_name) (items_of (naver_get net company_name))).
Proof.
  unfold fetch_news_for_company.
  destruct (naver_get net company_name) as [items|]; simpl items_of.
  - apply (process_item_fold company_name items [] h).
  - simpl. rewrite app_nil_r. reflexivity.
Qed.

(** X2. [fetch_news_for_company] answers a failed request with the empty
    list and writes nothing.  Otherwise it returns one new record per item
    of the response, in the order of the response: the company is the one
    asked for, title and description are the item's with the tags removed,
    link and publication date are the item's, each the empty string when
    the item has none, and no other key is set.  The records that existed
    before are left as they were. *)
Theorem fetch_news_for_company_records (net : network) (company_name : pystr) (h : heap) :
  let out := (fetch_news_for_company net company_name h).1 in
  let h' := (fetch_news_for_company net company_name h).2 in
  h `prefix_of` h'
  /\ length out = length (items_of (naver_get net company_name))
  /\ length h' = length h + length out
  /\ (forall i item, items_of (naver_get net company_name) !! i = Some item ->
        out !! i = Some (length h + i)
        /\ h' !!! (length h + i)
           = mkNews (Some company_name)
                    (Some (_clean_html_tags (get_str (r_title item))))
                    (Some (_clean_html_tags (get_str (r_description item))))
                    (Some (get_str (r_link item)))
                    (Some (get_str (r_pubDate item)))
                    None None None)
  /\ (naver_get net company_name = NaverFailure -> out = [] /\ h' = h).
Proof.
  cbv zeta. rewrite fetch_news_for_company_spec. cbn [fst snd].
  split; [eexists; reflexivity|]. split; [apply length_seq|].
  split; [rewrite length_app, length_map, length_seq; reflexivity|]. split.
  - intros i item Hi. split.
    + apply lookup_seq_lt. eapply lookup_lt_Some. exact Hi.
    + rewrite lookup_total_app_r by lia.
      replace (length h + i - length h) with i by lia.
      rewrite (lookup_total_map _ _ _ _ Hi). reflexivity.
  - intros ->. simpl. rewrite app_nil_r. split; reflexivity.
Qed.

Lemma fetch_news_for_company_records_witness :
  naver_get Sample.net_down (py "크래프톤") = NaverFailure
  /\ fetch_news_for_company Sample.net_down (py "크래프톤") [] = ([], []).
Proof.
  assert (Hf : naver_get Sample.net_down (py "크래프톤") = NaverFailure) by reflexivity.
  split; [exact Hf|].
  destruct (fetch_news_for_company_records Sample.net_down (py "크래프톤") [])
    as (_ & _ & _ & _ & H).
  destruct (H Hf) as [H1 H2].
  rewrite (surjective_pairing (fetch_news_for_company _ _ _)), H1, H2. reflexivity.
Defined.

(** ** Collection stage *)

Lemma gather_fetch (net : network) (companies : list pystr) (h : heap) (acc : list loc) :
  fold_left
    (fun all_news r =>
       match r with
       | Returned l => all_news ++ l
       | Raised _ => all_news
       end)
    (gather (map (fun c => lift (fetch_news_for_company net c)) companies) h).1 acc
  = acc ++ seq (length h) (length (collected net companies))
  /\ (gather (map (fun c => lift (fetch_news_for_company net c)) companies) h).2
     = h ++ collected net companies.
Proof.
  revert h acc. induction companies as [|c companies IH]; intros h acc.
  - simpl. rewrite !app_nil_r. split; reflexivity.
  - cbn [map gather]. unfold lift at 1 3. rewrite fetch_news_for_company_spec.
    set (recs := map (collected_record c) (items_of (naver_get net c))).
    destruct (IH (h ++ recs) (acc ++ seq (length h) (length (items_of (naver_get net c)))))
      as [IH1 IH2].
    destruct (gather _ (h ++ recs)) as [rs h2]. cbn [fst snd fold_left] in *.
    unfold collected. cbn [map concat]. fold (collected net companies). fold recs.
    split.
    + rewrite IH1. rewrite <- app_assoc. f_equal.
      rewrite !length_app. unfold recs. rewrite !length_map.
      symmetry. apply seq_app.
    + rewrite IH2. rewrite app_assoc. reflexivity.
Qed.

Lemma collected_length (net : network) (companies : list pystr) :
  length (collected net companies)
  = list_sum (map (fun c => length (items_of (naver_get net c))) companies).
Proof.
  unfold collected. induction companies as [|c companies IH]; simpl; [reflexivity|].
  rewrite length_app, length_map, IH. reflexivity.
Qed.

(** Where each collected record comes from. *)
Lemma collected_origin (net : network) (companies : list pystr) (n : news) :
  In n (collected net companies) ->
  exists c item, In c companies /\ In item (items_of (naver_get net c))
    /\ n = collected_record c item.
Proof.
  unfold collected. intros H. apply in_concat in H as (l & Hl & Hn).
  apply in_map_iff in Hl as (c & <- & Hc).
  apply in_map_iff in Hn as (item & <- & Hitem).
  exists c, item. repeat split; assumption.
Qed.

(** The stages of a run of the repository's pipeline, one after the
    other. *)
Lemma run_pipeline_trace (rt : runtime) (net : network) (companies : list pystr) (h : heap) :
  let h1 := h ++ collected net companies in
  let all_news := seq (length h) (length (collected net companies)) in
  let kw := (filter_by_keywords rt keyword_filter_service all_news h1).1 in
  let h2 := (filter_by_keywords rt keyword_filter_service all_news h1).2 in
  let dd := remove_similar_titles rt kw h2 in
  let cl := (classify_news net dd h2).1 in
  let h3 := (classify_news net dd h2).2 in
  let fin := (summarize_news rt net cl h3).1 in
  let r := (run_pipeline rt net companies h).1 in
  status r = success
  /\ total_collected r = length all_news
  /\ (results r = []
      \/ (results r = fin /\ companies_processed r = Some companies
          /\ after_keyword_filter r = length kw
          /\ after_deduplication r = Some (length dd)
          /\ after_classification r = length cl)).
Proof.
  cbv zeta.
  destruct (run_pipeline rt net companies h) as [r hf] eqn:Erun. cbn [fst].
  unfold run_pipeline, process_news_pipeline, try_except, pipeline_body,
    news_pipeline_service in Erun;
    cbn [naver_service keyword_filter classifier summary] in Erun;
    unfold bind, reads, ret, lift, extend_all in Erun.
  destruct (gather_fetch net companies h []) as [Hall Hh1].
  destruct (gather _ h) as [news_results h1]. cbn [fst snd] in Hall, Hh1.
  rewrite Hall, Hh1 in Erun. cbn [app] in Erun.
  destruct (is_empty (seq _ _)) eqn:E1.
  { apply is_empty_true in E1. rewrite E1. injection Erun as <- <-. early_exit. }
  destruct (filter_by_keywords _ _ _ _) as [kw h2]. cbn [fst snd] in *.
  destruct (is_empty kw); [injection Erun as <- <-; early_exit|].
  destruct (is_empty (remove_similar_titles rt kw h2));
    [injection Erun as <- <-; early_exit|].
  destruct (classify_news net _ h2) as [cl h3]. cbn [fst snd] in *.
  destruct (is_empty cl); [injection Erun as <- <-; early_exit|].
  destruct (summarize_news rt net cl h3) as [fin h4]. cbn [fst snd] in *.
  injection Erun as <- <-.
  split; [reflexivity|]. split; [reflexivity|]. right. repeat split.
Qed.

(** X3. In every run of the repository's pipeline the collection stage
    neither fails nor loses an item: the status is "success" and
    [total_collected] is the sum, over the companies asked for, of the
    number of items the news search returned for the company, a company
    whose request failed counting for zero. *)
Theorem pipeline_collects_every_item (rt : runtime) (net : network)
    (companies : list pystr) (h : heap) :
  status (run_pipeline rt net companies h).1 = success
  /\ total_collected (run_pipeline rt net companies h).1
     = list_sum (map (fun c => length (items_of (naver_get net c))) companies).
Proof.
  destruct (run_pipeline_trace rt net companies h) as (Hs & Ht & _).
  split; [exact Hs|]. rewrite Ht, length_seq. apply collected_length.
Qed.

(** ** From the news search to the results *)

Lemma in_sublist {A} (x : A) (l1 l2 : list A) :
  In x l1 -> l1 `sublist_of` l2 -> In x l2.
Proof.
  intros Hx Hs. apply list_elem_of_In. eapply elem_of_sublist; [|exact Hs].
  apply list_elem_of_In, Hx.
Qed.

Lemma enumerate_from_in {A} (l : list A) (k i : nat) (x : A) :
  In (i, x) (enumerate_from k l) -> In x l.
Proof.
  revert k. induction l as [|y l IH]; intros k; simpl; [intros []|].
  intros [[= _ ->]|H]; [left; reflexivity | right; exact (IH _ H)].
Qed.

(** Whatever the summarizer answers, the date, category and sentiment of
    the result are these. *)
Lemma summarize_item_defaults (rt : runtime) (net : network) (i : nat) (n : news) :
  Result.published_date (summarize_item rt net i n)
  = _format_published_date rt (get_str (pubDate n))
  /\ Result.category (summarize_item rt net i n) = default (py "일반") (category n)
  /\ Result.sentiment (summarize_item rt net i n) = py "neutral"
  /\ Result.id (summarize_item rt net i n) = uuid4 rt i.
Proof.
  unfold summarize_item, _create_fallback_result.
  destruct (summarizer_post net i _ _) as [code body| |]; [|repeat split..].
  destruct (code =? 200)%Z; [|repeat split].
  destruct (negb _ || _); repeat split.
Qed.

(** X4. Every result of a run of the repository's pipeline comes from an
    item that the news search returned for one of the companies asked for:
    its [corp] is that company, its [original_title] the title of the item
    with the tags removed, its [news_url] the link of the item, its
    [published_date] the normalized publication date of the item, and its
    [matched_keywords] the non-empty list of the lexicon entries that
    occur in that title.  The pipeline invents no result. *)
Theorem pipeline_results_provenance (rt : runtime) (net : network)
    (companies : list pystr) (h : heap) (res : Result.t) :
  In res (results (run_pipeline rt net companies h).1) ->
  exists c item,
    In c companies /\ In item (items_of (naver_get net c))
    /\ Result.corp res = Some c
    /\ Result.original_title res = Some (_clean_html_tags (get_str (r_title item)))
    /\ Result.news_url res = get_str (r_link item)
    /\ Result.published_date res = _format_published_date rt (get_str (r_pubDate item))
    /\ Result.matched_keywords res
       = matching_keywords rt keyword_filter_service (collected_record c item)
    /\ Result.matched_keywords res <> [].
Proof.
  intros Hres.
  pose proof (run_pipeline_trace rt net companies h) as Htrace. cbv zeta in Htrace.
  destruct Htrace as (_ & _ & [Hnil|(Hfin & _)]); [rewrite Hnil in Hres; destruct Hres|].
  rewrite Hfin in Hres. clear Hfin.
  set (h1 := h ++ collected net companies) in *.
  set (all_news := seq (length h) (length (collected net companies))) in *.
  assert (Hall : forall r, In r all_news -> r < length h1 /\ In (h1 !!! r) (collected net companies)).
  { intros r Hr. apply in_seq in Hr as [Hlo Hhi]. unfold h1. rewrite length_app.
    split; [lia|]. rewrite lookup_total_app_r by lia.
    destruct (lookup_lt_is_Some_2 (collected net companies) (r - length h)) as [n Hn]; [lia|].
    rewrite (list_lookup_total_correct _ _ _ Hn).
    apply list_elem_of_In, list_elem_of_lookup. eauto. }
  destruct (filter_by_keywords_inv rt keyword_filter_service all_news h1)
    as (h2 & Efilter & Hinv).
  rewrite Efilter in Hres. cbn [fst snd] in Hres.
  set (kw := List.filter (fun r => has_keyword rt keyword_filter_service (h1 !!! r)) all_news) in *.
  set (dd := remove_similar_titles rt kw h2) in *.
  assert (Hdd : forall r, In r dd ->
            In r all_news /\ has_keyword rt keyword_filter_service (h1 !!! r) = true).
  { intros r Hr.
    apply (filter_In (fun r => has_keyword rt keyword_filter_service (h1 !!! r))).
    fold kw. apply (in_sublist r dd kw Hr). apply remove_similar_titles_sublist. }
  assert (Hlive : live h2 dd).
  { apply Forall_forall. intros r Hr. apply list_elem_of_In in Hr.
    rewrite (inv_length _ _ _ _ _ Hinv). apply Hall, Hdd, Hr. }
  destruct (classify_news_copies net dd h2 Hlive) as (added & Eh3 & Hcopies).
  rewrite summarize_news_spec in Hres. cbn [fst] in Hres.
  apply in_map_iff in Hres as ([i r'] & <- & Hin). cbn [fst snd].
  apply enumerate_from_in in Hin.
  destruct (Hcopies r' Hin) as (_ & r & c0 & Hr & Hrec).
  rewrite Eh3, Hrec. clear Hrec.
  destruct (Hdd r Hr) as [Hr_all Hkey].
  destruct (Hall r Hr_all) as [Hlt Hcol].
  destruct (collected_origin net companies _ Hcol) as (c & item & Hc & Hitem & Erec).
  exists c, item. split; [exact Hc|]. split; [exact Hitem|].
  destruct (summarize_item_carries rt net i (set_classification c0 (h2 !!! r)))
    as (Hcorp & Htitle & _ & Hkw & Hurl).
  destruct (summarize_item_defaults rt net i (set_classification c0 (h2 !!! r)))
    as (Hdate & _).
  destruct (inv_fields _ _ _ _ _ Hinv r) as (Fc & Ft & _ & Fl & Fp & _).
  assert (Hmk : matched_keywords (h2 !!! r)
                = Some (matching_keywords rt keyword_filter_service (h1 !!! r))).
  { apply (inv_kept _ _ _ _ _ Hinv); [|exact Hlt]. apply filter_In. split; assumption. }
  cbn [set_classification company title link pubDate matched_keywords] in *.
  assert (Ec : company (h1 !!! r) = Some c) by (rewrite Erec; reflexivity).
  assert (Et : title (h1 !!! r) = Some (_clean_html_tags (get_str (r_title item))))
    by (rewrite Erec; reflexivity).
  assert (El : link (h1 !!! r) = Some (get_str (r_link item)))
    by (rewrite Erec; reflexivity).
  assert (Ep : pubDate (h1 !!! r) = Some (get_str (r_pubDate item)))
    by (rewrite Erec; reflexivity).
  rewrite Hcorp, Htitle, Hurl, Hdate, Hkw, Fc, Ft, Fl, Fp, Hmk, Ec, Et, El, Ep.
  rewrite <- Erec. cbn [default get_str].
  split; [reflexivity|]. split; [reflexivity|]. split; [reflexivity|].
  split; [reflexivity|]. split; [reflexivity|].
  unfold has_keyword in Hkey. apply existsb_filter_nonempty in Hkey. exact Hkey.
Qed.

Lemma pipeline_results_provenance_witness :
  exists res,
    In res (results (run_pipeline Sample.rt Sample.net_up [py "크래프톤"] []).1)
    /\ Result.corp res = Some (py "크래프톤")
    /\ Result.original_title res = Some (py "신작 출시")
    /\ Result.matched_keywords res <> [].
Proof.
  destruct (results (run_pipeline Sample.rt Sample.net_up [py "크래프톤"] []).1)
    as [|res rest] eqn:E; [vm_compute in E; discriminate|].
  exists res.
  assert (Hin : In res (res :: rest)) by (left; reflexivity).
  split; [exact Hin|].
  rewrite <- E in Hin.
  destruct (pipeline_results_provenance Sample.rt Sample.net_up [py "크래프톤"] [] res Hin)
    as (c & item & Hc & Hitem & Hcorp & Htitle & _ & _ & _ & Hkw).
  destruct Hc as [<-|[]]. destruct Hitem as [<-|[]].
  split; [exact Hcorp|]. split; [exact Htitle | exact Hkw].
Defined.

(** ** Summaries *)

Lemma generate_fallback_summary_nonempty (n : news) :
  _generate_fallback_summary n <> [].
Proof.
  unfold _generate_fallback_summary, Str.slice_to.
  pose proof infix_length as Hi. pose proof announced_length as Ha.
  destruct (Str.truthy (get_str (title n)) && Str.truthy (get_str (description n))).
  - apply nonempty_length. rewrite length_take.
    destruct (_ && _); [destruct (10 <? _)%Z|]; rewrite !length_app; lia.
  - destruct (Str.truthy (get_str (title n)));
      apply nonempty_length; rewrite !length_app; lia.
Qed.

(** X5. Whatever the summarizer does for an item, the result carries a
    summary that is not empty.  The summary is the summarizer's own text,
    marked [ai_generated], exactly when the response has status 200 and a
    text that is not blank; in every other case (blank or missing text,
    another status, a network error, any other exception) it is the
    fallback summary of the item, and the summary type tells which case it
    was, with the status code for a status other than 200. *)
Theorem summarize_item_summary (rt : runtime) (net : network) (i : nat) (n : news) :
  let answer := summarizer_post net i (get_str (title n)) (get_str (description n)) in
  let res := summarize_item rt net i n in
  Result.summary res <> []
  /\ (forall text, answer = SummarizerResponse 200 (Some text) -> Str.strip text <> [] ->
        Result.summary res = text /\ Result.summary_type res = ai_generated)
  /\ (Result.summary_type res = ai_generated ->
        exists text, answer = SummarizerResponse 200 (Some text)
          /\ Str.strip text <> [] /\ Result.summary res = text)
  /\ (Result.summary_type res <> ai_generated ->
        Result.summary res = _generate_fallback_summary n)
  /\ (forall code body, answer = SummarizerResponse code body -> code <> 200%Z ->
        Result.summary_type res = fallback_api_error code)
  /\ (forall body, answer = SummarizerResponse 200 body -> Str.strip (default [] body) = [] ->
        Result.summary_type res = fallback_empty_response)
  /\ (answer = SummarizerRequestError -> Result.summary_type res = fallback_network_error)
  /\ (answer = SummarizerException -> Result.summary_type res = fallback_unknown_error).
Proof.
  cbv zeta. unfold summarize_item, _create_fallback_result.
  pose proof (generate_fallback_summary_nonempty n) as Hfb.
  assert (Hblank : forall s : pystr,
            negb (Str.truthy s) || Str.eqb (Str.strip s) [] = true <-> Str.strip s = []).
  { intros s. rewrite orb_true_iff, eqb_nil_r. split; [|tauto].
    intros [H|H]; [|exact H]. destruct s; [reflexivity | discriminate]. }
  destruct (summarizer_post net i _ _) as [code body| |].
  - destruct (Z.eqb_spec code 200) as [->|Hcode].
    + destruct (negb _ || _) eqn:E.
      * apply Hblank in E. cbn.
        split; [exact Hfb|]. split; [intros text [= ->] Hne; destruct (Hne E)|].
        split; [discriminate|]. split; [reflexivity|].
        split; [intros c b [= <- _] Hc; destruct (Hc eq_refl)|].
        split; [reflexivity|]. split; discriminate.
      * assert (Hne : Str.strip (default [] body) <> []).
        { intros H. apply Hblank in H. congruence. }
        cbn.
        split; [intros H; rewrite H in Hne; apply Hne; reflexivity|].
        split; [intros text [= ->] _; split; reflexivity|].
        split.
        { intros _. destruct body as [text|]; [|destruct (Hne eq_refl)].
          exists text. repeat split. exact Hne. }
        split; [intros H; destruct (H eq_refl)|].
        split; [intros c b [= <- _] Hc; destruct (Hc eq_refl)|].
        split; [intros b [= <-] H; destruct (Hne H)|]. split; discriminate.
    + cbn.
      split; [exact Hfb|]. split; [intros text [= -> _]; destruct (Hcode eq_refl)|].
      split; [discriminate|]. split; [reflexivity|].
      split; [intros c b [= <- _] _; reflexivity|].
      split; [intros b [= -> _]; destruct (Hcode eq_refl)|]. split; discriminate.
  - cbn. split; [exact Hfb|]. split; [discriminate|]. split; [discriminate|].
    split; [reflexivity|]. split; [discriminate|]. split; [discriminate|].
    split; [reflexivity | discriminate].
  - cbn. split; [exact Hfb|]. split; [discriminate|]. split; [discriminate|].
    split; [reflexivity|]. split; [discriminate|]. split; [discriminate|].
    split; [discriminate | reflexivity].
Qed.

Lemma summarize_item_summary_witness :
  let n := Sample.item "X" "X launches product" "" in
  summarizer_post Sample.net_down 0 (get_str (title n)) (get_str (description n))
  = SummarizerRequestError
  /\ Result.summary_type (summarize_item Sample.rt Sample.net_down 0 n)
     = fallback_network_error
  /\ Result.summary (summarize_item Sample.rt Sample.net_down 0 n)
     = py "X 관련 뉴스: X launches product".
Proof.
  intros n.
  assert (Hans : summarizer_post Sample.net_down 0 (get_str (title n)) (get_str (description n))
                 = SummarizerRequestError) by reflexivity.
  pose proof (summarize_item_summary Sample.rt Sample.net_down 0 n) as H. cbv zeta in H.
  destruct H as (_ & _ & _ & Hfb & _ & _ & Hnet & _).
  split; [exact Hans|]. split; [exact (Hnet Hans)|].
  rewrite Hfb; [vm_compute; reflexivity|]. rewrite (Hnet Hans). discriminate.
Defined.

(** ** How the stages compose *)

Lemma startswith_split (p s : pystr) :
  Str.startswith p s = true -> exists rest, s = p ++ rest.
Proof.
  revert s. induction p as [|a p IH]; intros s; simpl.
  - intros _. exists s. reflexivity.
  - destruct s as [|b s]; [discriminate|].
    intros H. apply andb_true_iff in H as [Hab Hp].
    apply N.eqb_eq in Hab. subst b.
    destruct (IH s Hp) as (rest & ->). exists rest. reflexivity.
Qed.

(** The substring test holds only for a substring. *)
Lemma contains_split (needle hay : pystr) :
  Str.contains needle hay = true -> exists pre post, hay = pre ++ needle ++ post.
Proof.
  induction hay as [|c hay IH]; simpl; intros H.
  - apply orb_true_iff in H as [H|H]; [|discriminate].
    apply startswith_split in H as (rest & ->). exists [], rest. reflexivity.
  - apply orb_true_iff in H as [H|H].
    + apply startswith_split in H as (rest & ->). exists [], rest. reflexivity.
    + destruct (IH H) as (pre & post & ->). exists (c :: pre), post. reflexivity.
Qed.

Lemma not_blank_char (n : news) (c : codepoint) :
  In c (get_str (title n)) -> Str.isspace c = false -> ~ blank_title n.
Proof.
  unfold blank_title, stripped_title. rewrite strip_nil_iff.
  intros Hin Hc Hall. rewrite (Hall c Hin) in Hc. discriminate.
Qed.

(** X6. When lower-casing keeps a blank text blank and every lexicon
    keyword, lower-cased, has a character that is not white space, every
    item that [filter_by_keywords] keeps has a title that is not blank.
    The deduplication that follows in the pipeline therefore never
    discards such an item for a blank title: it discards it if and only if
    its title scores at least 85 against a title already kept. *)
Theorem filtered_titles_not_blank (rt : runtime) (self : KeywordFilterService)
    (news_list : list loc) (h : heap) :
  (forall s, (forall c, In c s -> Str.isspace c = true) ->
             forall c, In c (lower rt s) -> Str.isspace c = true) ->
  (forall keyword, In keyword (important_keywords self) ->
     exists c, In c (lower rt keyword) /\ Str.isspace c = false) ->
  let out := (filter_by_keywords rt self news_list h).1 in
  let h' := (filter_by_keywords rt self news_list h).2 in
  forall r, In r out ->
    ~ blank_title (h' !!! r)
    /\ forall kept,
         dedup_step rt h' kept r = kept
         <-> exists k, In k kept /\ similar_to rt (h' !!! r) (h' !!! k).
Proof.
  intros Hlower Hlex out h' r Hr. subst out h'.
  destruct (filter_by_keywords_inv rt self news_list h) as (h' & E & Hinv).
  rewrite E in *. cbn [fst snd] in *.
  assert (Hnb : ~ blank_title (h' !!! r)).
  { apply filter_In in Hr as [_ Hk]. apply has_keyword_iff in Hk as (kw & Hkw & Hc).
    destruct (Hlex kw Hkw) as (c & Hin & Hsp).
    apply contains_split in Hc as (pre & post & Etitle).
    assert (Hcl : In c (lower rt (get_str (title (h !!! r))))).
    { rewrite Etitle. apply in_or_app. right. apply in_or_app. left. exact Hin. }
    destruct (inv_fields _ _ _ _ _ Hinv r) as (_ & Ht & _).
    intros Hblank. unfold blank_title, stripped_title in Hblank.
    rewrite Ht in Hblank.
    pose proof (proj1 (strip_nil_iff (get_str (title (h !!! r)))) Hblank) as Hsps.
    rewrite (Hlower _ Hsps c Hcl) in Hsp. discriminate. }
  split; [exact Hnb|]. intros kept. split.
  - intros Hkept. destruct (classic_similar rt h' kept r) as [Hs|Hs]; [exact Hs|].
    exfalso. rewrite (dedup_step_fresh rt h' kept r Hnb) in Hkept.
    + apply (f_equal (@length _)) in Hkept. rewrite length_app in Hkept. simpl in Hkept. lia.
    + intros k Hin Hk. apply Hs. exists k. split; assumption.
  - apply dedup_step_similar.
Qed.

Lemma ascii_lower_keeps_space (c : codepoint) :
  Str.isspace c = true -> Str.ascii_lower_char c = c.
Proof.
  unfold Str.ascii_lower_char, Str.isspace. intros H.
  destruct ((65 <=? c) && (c <=? 90))%N eqn:E; [|reflexivity]. exfalso.
  apply andb_true_iff in E as [E1 E2]. apply N.leb_le in E1, E2.
  repeat (apply orb_true_iff in H as [H|H]);
    repeat match goal with
    | H : (_ && _)%bool = true |- _ => apply andb_true_iff in H as [? ?]
    | H : (_ <=? _)%N = true |- _ => apply N.leb_le in H
    | H : (_ =? _)%N = true |- _ => apply N.eqb_eq in H
    end; lia.
Qed.

Lemma ascii_lower_keeps_blank (s : pystr) :
  (forall c, In c s -> Str.isspace c = true) ->
  forall c, In c (Str.ascii_lower s) -> Str.isspace c = true.
Proof.
  intros Hs c Hc. unfold Str.ascii_lower in Hc.
  apply in_map_iff in Hc as (d & <- & Hd).
  rewrite (ascii_lower_keeps_space d (Hs d Hd)). apply Hs, Hd.
Qed.

Lemma default_keywords_not_blank (keyword : pystr) :
  In keyword (important_keywords keyword_filter_service) ->
  exists c, In c (Str.ascii_lower keyword) /\ Str.isspace c = false.
Proof.
  assert (H : forallb (fun kw => existsb (fun c => negb (Str.isspace c)) (Str.ascii_lower kw))
                (important_keywords keyword_filter_service) = true)
    by (vm_compute; reflexivity).
  rewrite forallb_forall in H. intros Hin. specialize (H keyword Hin).
  apply existsb_exists in H as (c & Hc & Hsp). exists c. split; [exact Hc|].
  apply negb_true_iff, Hsp.
Qed.

Lemma filtered_titles_not_blank_witness :
  let h := [Sample.item "크래프톤" "크래프톤 신작 출시" "a"; Sample.item "넷마블" "   " "b"] in
  (filter_by_keywords Sample.rt keyword_filter_service [0; 1] h).1 = [0]
  /\ ~ blank_title ((filter_by_keywords Sample.rt keyword_filter_service [0; 1] h).2 !!! 0).
Proof.
  intros h.
  assert (Hout : (filter_by_keywords Sample.rt keyword_filter_service [0; 1] h).1 = [0])
    by (vm_compute; reflexivity).
  split; [exact Hout|].
  apply (filtered_titles_not_blank Sample.rt keyword_filter_service [0; 1] h
           ascii_lower_keeps_blank default_keywords_not_blank 0).
  rewrite Hout. left. reflexivity.
Defined.

Lemma set_matched_keywords_same (kws : list pystr) (n : news) :
  matched_keywords n = Some kws -> set_matched_keywords kws n = n.
Proof. destruct n. simpl. intros ->. reflexivity. Qed.

Lemma filter_fold_fixed (rt : runtime) (self : KeywordFilterService)
    (news_list acc : list loc) (h : heap) :
  (forall r, In r news_list ->
     has_keyword rt self (h !!! r) = true
     /\ matched_keywords (h !!! r) = Some (matching_keywords rt self (h !!! r))) ->
  fold_left (filter_step rt self) news_list (acc, h) = (acc ++ news_list, h).
Proof.
  revert acc. induction news_list as [|r l IH]; intros acc Hall; cbn [fold_left].
  - rewrite app_nil_r. reflexivity.
  - destruct (Hall r (or_introl eq_refl)) as [Hk Hm].
    unfold filter_step at 2. rewrite match_keywords_spec.
    fold (has_keyword rt self (h !!! r)). fold (matching_keywords rt self (h !!! r)).
    rewrite Hk. rewrite (set_matched_keywords_same _ _ Hm).
    rewrite list_insert_id'.
    + rewrite IH; [rewrite <- app_assoc; reflexivity|].
      intros r' Hr'. apply Hall. right. exact Hr'.
    + apply list_lookup_lookup_total_lt.
Qed.

(** X7. Filtering the output of [filter_by_keywords] again changes
    nothing: every item is kept, in the same order, and the store stays as
    the first call left it. *)
Theorem filter_by_keywords_idempotent (rt : runtime) (self : KeywordFilterService)
    (news_list : list loc) (h : heap) :
  live h news_list ->
  let out := (filter_by_keywords rt self news_list h).1 in
  let h' := (filter_by_keywords rt self news_list h).2 in
  filter_by_keywords rt self out h' = (out, h').
Proof.
  intros Hlive out h'. subst out h'.
  destruct (filter_by_keywords_inv rt self news_list h) as (h' & E & Hinv).
  rewrite E. cbn [fst snd]. unfold filter_by_keywords.
  apply (filter_fold_fixed rt self _ [] h').
  intros r Hr.
  destruct (inv_fields _ _ _ _ _ Hinv r) as (_ & Ht & _).
  unfold has_keyword, matching_keywords. rewrite Ht.
  pose proof Hr as Hr'. apply filter_In in Hr' as [Hin Hk]. split; [exact Hk|].
  apply (inv_kept _ _ _ _ _ Hinv r Hr).
  unfold live in Hlive. rewrite Forall_forall in Hlive.
  apply Hlive, list_elem_of_In, Hin.
Qed.

Lemma filter_by_keywords_idempotent_witness :
  let h := [Sample.item "크래프톤" "크래프톤 신작 출시" "a"; Sample.item "넷마블" "넷마블 야유회" "b"] in
  live h [0; 1]
  /\ (filter_by_keywords Sample.rt keyword_filter_service [0; 1] h).1 = [0]
  /\ filter_by_keywords Sample.rt keyword_filter_service
       (filter_by_keywords Sample.rt keyword_filter_service [0; 1] h).1
       (filter_by_keywords Sample.rt keyword_filter_service [0; 1] h).2
     = filter_by_keywords Sample.rt keyword_filter_service [0; 1] h.
Proof.
  intros h.
  assert (Hlive : live h [0; 1]) by (repeat constructor).
  split; [exact Hlive|]. split; [vm_compute; reflexivity|].
  rewrite (filter_by_keywords_idempotent Sample.rt keyword_filter_service [0; 1] h Hlive).
  symmetry. apply surjective_pairing.
Defined.

Section DeduplicationOrder.

Variable rt : runtime.
Variable h : heap.

(** A step keeps the list, or appends a candidate whose title is not blank
    and not similar to any kept title. *)
Lemma dedup_step_appends (kept : list loc) (c : loc) :
  dedup_step rt h kept c = kept
  \/ (dedup_step rt h kept c = kept ++ [c]
      /\ ~ blank_title (h !!! c)
      /\ forall k, In k kept -> ~ similar_to rt (h !!! c) (h !!! k)).
Proof.
  destruct (dedup_step_cases rt h kept c) as [E|[E Hnb]]; [left; exact E|].
  destruct (classic_similar rt h kept c) as [Hs|Hs].
  - left. apply dedup_step_similar. exact Hs.
  - right. split; [exact E|]. split; [exact Hnb|].
    intros k Hin Hk. apply Hs. exists k. split; assumption.
Qed.

(** What a scan adds to the kept list: running the scan on it again, from
    the same kept list, adds all of it; and each added item is dissimilar
    to everything kept before it. *)
Lemma dedup_fold_fixed (news_list kept : list loc) :
  exists added,
    fold_left (dedup_step rt h) news_list kept = kept ++ added
    /\ fold_left (dedup_step rt h) added kept = kept ++ added
    /\ forall before c after, added = before ++ c :: after ->
         forall k, In k (kept ++ before) -> ~ similar_to rt (h !!! c) (h !!! k).
Proof.
  revert kept. induction news_list as [|c l IH]; intros kept; cbn [fold_left].
  - exists []. rewrite app_nil_r. split; [reflexivity|]. split; [reflexivity|].
    intros [|] ? ? [=].
  - destruct (dedup_step_appends kept c) as [->|(E & Hnb & Hdis)].
    + apply IH.
    + rewrite E. destruct (IH (kept ++ [c])) as (added & E1 & E2 & Hord).
      exists (c :: added). rewrite E1, <- app_assoc. split; [reflexivity|].
      split.
      * cbn [fold_left]. rewrite E, E2, <- app_assoc. reflexivity.
      * intros before c' after Eadd k Hk. destruct before as [|b before].
        -- injection Eadd as <- _. rewrite app_nil_r in Hk. exact (Hdis k Hk).
        -- injection Eadd as <- Eadd. apply (Hord before c' after Eadd k).
           rewrite <- app_assoc. exact Hk.
Qed.

End DeduplicationOrder.

(** X8. Running [remove_similar_titles] on its own output changes nothing,
    and in the output no title scores 85 or more against the title of an
    item that stands before it. *)
Theorem remove_similar_titles_idempotent (rt : runtime) (news_list : list loc) (h : heap) :
  remove_similar_titles rt (remove_similar_titles rt news_list h) h
  = remove_similar_titles rt news_list h
  /\ forall before c after,
       remove_similar_titles rt news_list h = before ++ c :: after ->
       forall k, In k before -> ~ similar_to rt (h !!! c) (h !!! k).
Proof.
  rewrite !remove_similar_titles_fold.
  destruct (dedup_fold_fixed rt h news_list []) as (added & E1 & E2 & Hord).
  rewrite E1. cbn [app]. split; [exact E2|].
  intros before c after E k Hk. exact (Hord before c after E k Hk).
Qed.

Lemma remove_similar_titles_idempotent_witness :
  let h := [Sample.item "크래프톤" "크래프톤 신작 출시" "a";
            Sample.item "크래프톤" "크래프톤 신작 출시" "b";
            Sample.item "넷마블" "넷마블 실적 발표" "c"] in
  remove_similar_titles Sample.rt [0; 1; 2] h = [0] ++ 2 :: []
  /\ ~ similar_to Sample.rt (h !!! 2) (h !!! 0).
Proof.
  intros h.
  assert (E : remove_similar_titles Sample.rt [0; 1; 2] h = [0] ++ 2 :: [])
    by (vm_compute; reflexivity).
  split; [exact E|].
  apply (proj2 (remove_similar_titles_idempotent Sample.rt [0; 1; 2] h) [0] 2 [] E 0).
  left. reflexivity.
Defined.

(** ** Publication date *)

Lemma before_plus_app (s t : pystr) :
  Str.before_plus (s ++ 43%N :: t) = Str.before_plus s.
Proof.
  induction s as [|c s IH]; simpl; [reflexivity|].
  destruct (c =? 43)%N; [reflexivity | rewrite IH; reflexivity].
Qed.

(** X9. What follows the first plus sign of the publication date, the zone
    offset, has no influence on [_format_published_date]: the result is
    the rendering of the date written before it, however the text goes
    on. *)
Theorem format_published_date_ignores_offset (rt : runtime) (s t t' : pystr) :
  _format_published_date rt (s ++ 43%N :: t) = _format_published_date rt (s ++ 43%N :: t')
  /\ _format_published_date rt (s ++ 43%N :: t)
     = match strptime rt (Str.strip (Str.before_plus s)) with
       | Some dt => strftime rt dt
       | None => strftime rt (now rt)
       end.
Proof.
  assert (H : forall u, _format_published_date rt (s ++ 43%N :: u)
              = match strptime rt (Str.strip (Str.before_plus s)) with
                | Some dt => strftime rt dt
                | None => strftime rt (now rt)
                end).
  { intros u. unfold _format_published_date. rewrite before_plus_app.
    destruct (s ++ 43%N :: u) eqn:E; [destruct s; discriminate | reflexivity]. }
  split; [rewrite !H; reflexivity | apply H].
Qed.

(** ** Orchestrator *)


(** * Issue service *)

(** The counts of a run of the repository's pipeline, the count of the
    deduplication stage read with the default 0. *)
Lemma run_pipeline_count_chain (rt : runtime) (net : network)
    (companies : list pystr) (h : heap) :
  let r := (run_pipeline rt net companies h).1 in
  final_summaries r = after_classification r
  /\ after_classification r <= default 0 (after_deduplication r)
  /\ default 0 (after_deduplication r) <= after_keyword_filter r
  /\ after_keyword_filter r <= total_collected r.
Proof.
  cbv zeta.
  destruct (run_pipeline rt net companies h) as [r hf] eqn:Erun. cbn [fst].
  unfold run_pipeline, process_news_pipeline, try_except, pipeline_body,
    news_pipeline_service in Erun;
    cbn [naver_service keyword_filter classifier summary] in Erun;
    unfold bind, reads, ret, lift in Erun.
  destruct (gather _ h) as [news_results h1].
  set (all_news := extend_all news_results) in Erun.
  destruct (is_empty all_news);
    [injection Erun as <- <-; cbn; repeat split; lia|].
  pose proof (filter_by_keywords_length rt keyword_filter_service all_news h1) as Hkw.
  destruct (filter_by_keywords _ _ _ _) as [kw h2]. cbn [fst snd] in *.
  destruct (is_empty kw); [injection Erun as <- <-; cbn; repeat split; lia|].
  pose proof (remove_similar_titles_length rt kw h2) as Hdd.
  destruct (is_empty (remove_similar_titles rt kw h2));
    [injection Erun as <- <-; cbn; repeat split; lia|].
  pose proof (classify_news_length net (remove_similar_titles rt kw h2) h2) as Hcl.
  destruct (classify_news net _ h2) as [cl h3]. cbn [fst snd] in *.
  destruct (is_empty cl); [injection Erun as <- <-; cbn; repeat split; lia|].
  pose proof (summarize_news_length rt net cl h3) as Hsm.
  destruct (summarize_news rt net cl h3) as [fin h4]. cbn [fst snd] in *.
  injection Erun as <- <-. cbn. repeat split; lia.
Qed.

(** The response, from the result of the pipeline. *)
Lemma process_news_pipeline_with_response_spec (rt : runtime) (self : NewsPipelineService)
    (companies : list pystr) (h : heap) :
  process_news_pipeline_with_response rt self companies h
  = let r := (process_news_pipeline rt self companies h).1 in
    (IssueResponse.mk success (message r) (total_collected r) (after_keyword_filter r)
       (default 0 (after_deduplication r)) (after_classification r) (final_summaries r)
       (length (default [] (companies_processed r))) (results r),
     (process_news_pipeline rt self companies h).2).
Proof.
  unfold process_news_pipeline_with_response, try_except, bind, lift, ret.
  destruct (process_news_pipeline rt self companies h) as [r h']. reflexivity.
Qed.

(** The companies are reported by the runs that reached the summarizer;
    the other runs have no result. *)
Lemma pipeline_companies_processed (rt : runtime) (self : NewsPipelineService)
    (companies : list pystr) (h : heap) :
  let r := (process_news_pipeline rt self companies h).1 in
  final_summaries r = length (results r)
  /\ (companies_processed r = Some companies
      \/ companies_processed r = None /\ results r = []).
Proof.
  cbv zeta.
  unfold process_news_pipeline, try_except, pipeline_body, bind, lift, reads, ret.
  destruct (gather _ h) as [news_results h1].
  destruct (is_empty (extend_all news_results)); [split; [|right; split]; reflexivity|].
  destruct (keyword_filter self _ h1) as [[kw|e] h2];
    [|split; [|right; split]; reflexivity].
  destruct (is_empty kw); [split; [|right; split]; reflexivity|].
  destruct (is_empty (remove_similar_titles rt kw h2));
    [split; [|right; split]; reflexivity|].
  destruct (classifier self _ h2) as [[cl|e] h3];
    [|split; [|right; split]; reflexivity].
  destruct (is_empty cl); [split; [|right; split]; reflexivity|].
  destruct (summary self cl h3) as [[fin|e] h4];
    [|split; [|right; split]; reflexivity].
  split; [reflexivity | left; reflexivity].
Qed.

(** X11. The response of the issue service always has the status
    "success", also when the pipeline reports an error: its own error
    branch is never taken, since the pipeline catches every exception of
    the services.  A failed run is told from a good one only by the
    message; its counts are zero and it has no result.  In every response
    [final_summaries] is the number of results, and [companies_processed]
    is the number of companies asked for when the run reached the
    summarizer and zero, with no result, otherwise. *)
Theorem issue_response_always_success (rt : runtime) (self : NewsPipelineService)
    (companies : list pystr) (h : heap) :
  let r := (process_news_pipeline rt self companies h).1 in
  let resp := (process_news_pipeline_with_response rt self companies h).1 in
  IssueResponse.status resp = success
  /\ IssueResponse.message resp = message r
  /\ IssueResponse.results resp = results r
  /\ IssueResponse.final_summaries resp = length (IssueResponse.results resp)
  /\ (IssueResponse.companies_processed resp = length companies
      \/ IssueResponse.companies_processed resp = 0
         /\ IssueResponse.results resp = [])
  /\ (forall e h', pipeline_body rt self companies h = (Raised e, h') ->
        status r = error
        /\ resp = IssueResponse.mk success (py "파이프라인 처리 중 오류 발생: " ++ e)
                    0 0 0 0 0 0 []).
Proof.
  cbv zeta. rewrite process_news_pipeline_with_response_spec. cbv zeta. cbn [fst].
  split; [reflexivity|]. split; [reflexivity|]. split; [reflexivity|].
  cbn [IssueResponse.status IssueResponse.message IssueResponse.results
       IssueResponse.final_summaries IssueResponse.companies_processed].
  destruct (pipeline_companies_processed rt self companies h) as [Hf Hc].
  split; [exact Hf|]. split.
  - destruct Hc as [->|[-> Hres]]; [left; reflexivity | right; split; [reflexivity | exact Hres]].
  - intros e h' Hbody. rewrite (process_news_pipeline_catches rt self companies h h' e Hbody).
    split; reflexivity.
Qed.

(** X12. For the repository's pipeline the counts of the response never
    increase from one stage to the next: [final_summaries] equals
    [after_classification], which is at most [after_deduplication], which
    is at most [after_keyword_filter], which is at most
    [total_collected]; the count the pipeline leaves out when nothing was
    collected is read as zero. *)
Theorem issue_response_count_chain (rt : runtime) (net : network)
    (companies : list pystr) (h : heap) :
  let resp := (process_news_pipeline_with_response rt (news_pipeline_service rt net)
                 companies h).1 in
  IssueResponse.final_summaries resp = IssueResponse.after_classification resp
  /\ IssueResponse.after_classification resp <= IssueResponse.after_deduplication resp
  /\ IssueResponse.after_deduplication resp <= IssueResponse.after_keyword_filter resp
  /\ IssueResponse.after_keyword_filter resp <= IssueResponse.total_collected resp
  /\ IssueResponse.total_collected resp
     = list_sum (map (fun c => length (items_of (naver_get net c))) companies).
Proof.
  cbv zeta. rewrite process_news_pipeline_with_response_spec. cbv zeta. cbn [fst].
  cbn [IssueResponse.final_summaries IssueResponse.after_classification
       IssueResponse.after_deduplication IssueResponse.after_keyword_filter
       IssueResponse.total_collected].
  destruct (run_pipeline_count_chain rt net companies h) as (H1 & H2 & H3 & H4).
  destruct (run_pipeline_trace rt net companies h) as (_ & Ht & _).
  unfold run_pipeline in *.
  repeat (split; [assumption|]).
  rewrite Ht, length_seq. apply collected_length.
Qed.

(** * Summary predictor *)

Section PredictorText.

Import SummarizerPredictor.

Lemma first_line_no_feed (s : pystr) : ~ In 10%N (first_line s).
Proof.
  induction s as [|c s IH]; simpl; [tauto|].
  destruct (c =? 10)%N eqn:E; simpl; [tauto|].
  apply N.eqb_neq in E. intros [H|H]; [congruence | exact (IH H)].
Qed.

Lemma first_line_in (s : pystr) (c : codepoint) : In c (first_line s) -> In c s.
Proof.
  induction s as [|a s IH]; simpl; [tauto|].
  destruct (a =? 10)%N; simpl; [tauto|]. intros [H|H]; [left; exact H | right; exact (IH H)].
Qed.

Lemma first_line_fixed (s : pystr) : ~ In 10%N s -> first_line s = s.
Proof.
  induction s as [|c s IH]; simpl; [reflexivity|]. intros H.
  destruct (c =? 10)%N eqn:E; [apply N.eqb_eq in E; tauto|].
  f_equal. apply IH. tauto.
Qed.

Lemma lstrip_in (s : pystr) (c : codepoint) : In c (Str.lstrip s) -> In c s.
Proof.
  induction s as [|a s IH]; simpl; [tauto|].
  destruct (Str.isspace a); [intros H; right; exact (IH H) | tauto].
Qed.

Lemma strip_in (s : pystr) (c : codepoint) : In c (Str.strip s) -> In c s.
Proof.
  unfold Str.strip, Str.rstrip. intros H.
  apply in_rev, lstrip_in, in_rev in H. apply lstrip_in, H.
Qed.

Lemma remove_marker_from_in (s : pystr) (skip : nat) (c : codepoint) :
  In c (remove_marker_from skip s) -> In c s.
Proof.
  revert skip. induction s as [|a s IH]; intros skip; [simpl; tauto|].
  cbn [remove_marker_from]. destruct skip as [|k].
  - destruct (Str.startswith marker (a :: s)).
    + intros H. right. exact (IH _ H).
    + intros [H|H]; [left; exact H | right; exact (IH _ H)].
  - intros H. right. exact (IH _ H).
Qed.

Lemma remove_marker_fixed (s : pystr) :
  Str.contains marker s = false -> remove_marker s = s.
Proof.
  unfold remove_marker. induction s as [|a s IH]; [reflexivity|].
  cbn [Str.contains remove_marker_from]. intros H.
  apply orb_false_iff in H as [H1 H2]. rewrite H1. f_equal. exact (IH H2).
Qed.

Lemma dots_length : length (py "...") = 3.
Proof. reflexivity. Qed.

Lemma clean_generated_text_cases (text : pystr) :
  _clean_generated_text text = cleaned_line text /\ length (cleaned_line text) <= 200
  \/ _clean_generated_text text = take 200 (cleaned_line text) ++ py "..."
     /\ 200 < length (cleaned_line text).
Proof.
  unfold _clean_generated_text. destruct text as [|c text]; cbn [Str.truthy negb].
  - left. split; [reflexivity | simpl; lia].
  - fold (cleaned_line (c :: text)).
    destruct (200 <? length (cleaned_line (c :: text))) eqn:E.
    + right. split; [reflexivity | apply Nat.ltb_lt, E].
    + left. split; [reflexivity | apply Nat.ltb_ge, E].
Qed.

Lemma cleaned_line_in (text : pystr) (c : codepoint) :
  In c (cleaned_line text) -> In c (first_line text).
Proof.
  unfold cleaned_line, remove_marker. intros H.
  apply strip_in, remove_marker_from_in, strip_in in H. exact H.
Qed.

Lemma clean_generated_text_in (text : pystr) (c : codepoint) :
  In c (_clean_generated_text text) -> In c (first_line text) \/ c = 46%N.
Proof.
  destruct (clean_generated_text_cases text) as [[-> _]|[-> _]].
  - intros H. left. apply cleaned_line_in, H.
  - intros H. apply in_app_or in H as [H|H].
    + left. apply cleaned_line_in.
      rewrite <- (take_drop 200 (cleaned_line text)). apply in_or_app. left. exact H.
    + right. vm_compute in H. intuition congruence.
Qed.

Lemma clean_generated_text_length (text : pystr) :
  length (_clean_generated_text text) <= 203.
Proof.
  destruct (clean_generated_text_cases text) as [[-> H]|[-> H]]; [lia|].
  rewrite length_app, length_take, dots_length. lia.
Qed.

Lemma clean_generated_text_no_feed (text : pystr) :
  ~ In 10%N (_clean_generated_text text).
Proof.
  intros H. apply clean_generated_text_in in H as [H|H]; [|discriminate].
  exact (first_line_no_feed text H).
Qed.

(** X13. The cleaned continuation has at most 203 characters and is a
    single line made of characters of the first line of the text, and of
    full stops when it was cut.  It is empty when the first line is blank,
    and it is the text itself when the text is one line of at most 200
    characters, without white space at its ends and without the marker of
    the prompt. *)
Theorem clean_generated_text_bounds (text : pystr) :
  length (_clean_generated_text text) <= 203
  /\ ~ In 10%N (_clean_generated_text text)
  /\ (forall c, In c (_clean_generated_text text) ->
        In c (first_line text) \/ c = 46%N)
  /\ ((forall c, In c (first_line text) -> Str.isspace c = true) ->
        _clean_generated_text text = [])
  /\ (~ In 10%N text -> Str.strip text = text -> Str.contains marker text = false ->
      length text <= 200 -> _clean_generated_text text = text).
Proof.
  split; [apply clean_generated_text_length|].
  split; [apply clean_generated_text_no_feed|].
  split; [apply clean_generated_text_in|]. split.
  - intros Hblank.
    assert (E : cleaned_line text = []).
    { unfold cleaned_line. rewrite (proj2 (strip_nil_iff (first_line text)) Hblank).
      reflexivity. }
    destruct (clean_generated_text_cases text) as [[-> _]|[_ H]]; [exact E|].
    rewrite E in H. simpl in H. lia.
  - intros Hfeed Hstrip Hmark Hlen.
    assert (E : cleaned_line text = text).
    { unfold cleaned_line. rewrite (first_line_fixed text Hfeed), Hstrip.
      rewrite (remove_marker_fixed text Hmark). exact Hstrip. }
    destruct (clean_generated_text_cases text) as [[-> _]|[_ H]]; [exact E|].
    rewrite E in H. lia.
Qed.

(** X14. [generate_summary] never returns the empty text: an empty
    cleaned continuation is replaced by a fixed sentence and an exception
    by a message that carries its text.  When the generation succeeds the
    summary has at most 203 characters and no line feed. *)
Theorem generate_summary_never_empty (g : generation) :
  generate_summary g <> []
  /\ (forall e, g = GenerationError e ->
        generate_summary g = py "요약 생성 중 오류 발생: " ++ e)
  /\ (forall generated_text, g = Decoded generated_text ->
        length (generate_summary g) <= 203
        /\ ~ In 10%N (generate_summary g)
        /\ (generate_summary g = _clean_generated_text (Str.strip generated_text)
            \/ _clean_generated_text (Str.strip generated_text) = []
               /\ generate_summary g = py "요약을 생성할 수 없습니다.")).
Proof.
  split; [|split].
  - destruct g as [t|e]; cbn [generate_summary].
    + destruct (_clean_generated_text (Str.strip t)) eqn:E; cbn [Str.truthy]; discriminate.
    + discriminate.
  - intros e ->. reflexivity.
  - intros t ->. cbn [generate_summary].
    pose proof (clean_generated_text_length (Str.strip t)) as Hlen.
    pose proof (clean_generated_text_no_feed (Str.strip t)) as Hfeed.
    destruct (_clean_generated_text (Str.strip t)) eqn:E; cbn [Str.truthy].
    + split; [vm_compute; lia|]. split; [|right; split; reflexivity].
      vm_compute. intuition congruence.
    + split; [exact Hlen|]. split; [exact Hfeed | left; reflexivity].
Qed.

End PredictorText.

(** * The pipeline as the composition of its stages *)

(** Closes the goal about the stages of a run that ends in an early return,
    once the empty list is in place. *)
Ltac empty_stage := cbn; repeat split; reflexivity.

Lemma run_pipeline_stages (rt : runtime) (net : network) (companies : list pystr) (h : heap) :
  let h1 := h ++ collected net companies in
  let all_news := seq (length h) (length (collected net companies)) in
  let kw := (filter_by_keywords rt keyword_filter_service all_news h1).1 in
  let h2 := (filter_by_keywords rt keyword_filter_service all_news h1).2 in
  let dd := remove_similar_titles rt kw h2 in
  let cl := (classify_news net dd h2).1 in
  let h3 := (classify_news net dd h2).2 in
  let fin := (summarize_news rt net cl h3).1 in
  let r := (run_pipeline rt net companies h).1 in
  total_collected r = length all_news
  /\ after_keyword_filter r = length kw
  /\ default 0 (after_deduplication r) = length dd
  /\ after_classification r = length cl
  /\ final_summaries r = length fin
  /\ results r = fin.
Proof.
  cbv zeta.
  destruct (run_pipeline rt net companies h) as [r hf] eqn:Erun. cbn [fst].
  unfold run_pipeline, process_news_pipeline, try_except, pipeline_body,
    news_pipeline_service in Erun;
    cbn [naver_service keyword_filter classifier summary] in Erun;
    unfold bind, reads, ret, lift, extend_all in Erun.
  destruct (gather_fetch net companies h []) as [Hall Hh1].
  destruct (gather _ h) as [news_results h1]. cbn [fst snd] in Hall, Hh1.
  rewrite Hall, Hh1 in Erun. cbn [app] in Erun.
  destruct (is_empty (seq _ _)) eqn:E1.
  { apply is_empty_true in E1. rewrite E1. injection Erun as <- <-. empty_stage. }
  destruct (filter_by_keywords _ _ _ _) as [kw h2]. cbn [fst snd] in *.
  destruct (is_empty kw) eqn:E2.
  { apply is_empty_true in E2. subst kw. injection Erun as <- <-. empty_stage. }
  destruct (is_empty (remove_similar_titles rt kw h2)) eqn:E3.
  { apply is_empty_true in E3. rewrite E3. injection Erun as <- <-. empty_stage. }
  destruct (classify_news net _ h2) as [cl h3]. cbn [fst snd] in *.
  destruct (is_empty cl) eqn:E4.
  { apply is_empty_true in E4. subst cl. injection Erun as <- <-. empty_stage. }
  destruct (summarize_news rt net cl h3) as [fin h4]. cbn [fst snd] in *.
  injection Erun as <- <-. repeat split.
Qed.

(** X15. The result of a run of the repository's pipeline is the
    composition of the four stages on the collected records, also when the
    run returns early: the results are what [summarize_news] gives for the
    output of [classify_news] on the output of [remove_similar_titles] on
    the output of [filter_by_keywords], and each count is the length of
    the output of its stage, the count the first early return leaves out
    standing for zero.  An early return skips stages only when their
    output would be empty. *)
Theorem pipeline_is_composition (rt : runtime) (net : network)
    (companies : list pystr) (h : heap) :
  let h1 := h ++ collected net companies in
  let all_news := seq (length h) (length (collected net companies)) in
  let filtered := filter_by_keywords rt keyword_filter_service all_news h1 in
  let deduped := remove_similar_titles rt filtered.1 filtered.2 in
  let classified := classify_news net deduped filtered.2 in
  let summarized := summarize_news rt net classified.1 classified.2 in
  let r := (run_pipeline rt net companies h).1 in
  results r = summarized.1
  /\ total_collected r = length (collected net companies)
  /\ after_keyword_filter r = length filtered.1
  /\ default 0 (after_deduplication r) = length deduped
  /\ after_classification r = length classified.1
  /\ final_summaries r = length summarized.1.
Proof.
  cbv zeta.
  destruct (run_pipeline_stages rt net companies h) as (H1 & H2 & H3 & H4 & H5 & H6).
  rewrite length_seq in H1. repeat split; assumption.
Qed.

(** X16. When the classifier gives no usable answer, a run of the
    repository's pipeline loses nothing after the deduplication: there
    are as many classified items, summaries and results as deduplicated
    items, and every result carries the default confidence 0.7. *)
Theorem pipeline_fail_open (rt : runtime) (net : network)
    (companies : list pystr) (h : heap) :
  (forall titles, classifier_failure (classifier_post net titles)) ->
  let r := (run_pipeline rt net companies h).1 in
  after_classification r = default 0 (after_deduplication r)
  /\ final_summaries r = default 0 (after_deduplication r)
  /\ length (results r) = default 0 (after_deduplication r)
  /\ forall res, In res (results r) -> Result.confidence res = Some float_0_7.
Proof.
  intros Hfail. cbv zeta.
  destruct (run_pipeline_stages rt net companies h) as (_ & _ & H3 & H4 & H5 & H6).
  rewrite H3, H4, H5, H6. clear H3 H4 H5 H6.
  set (h1 := h ++ collected net companies).
  set (all_news := seq (length h) (length (collected net companies))).
  destruct (filter_by_keywords_inv rt keyword_filter_service all_news h1)
    as (h2 & Efilter & Hinv).
  rewrite Efilter. cbn [fst snd].
  set (kw := List.filter (fun r => has_keyword rt keyword_filter_service (h1 !!! r)) all_news).
  set (dd := remove_similar_titles rt kw h2).
  assert (Hlive : live h2 dd).
  { apply Forall_forall. intros r Hr. apply list_elem_of_In in Hr.
    rewrite (inv_length _ _ _ _ _ Hinv).
    assert (Hall : In r all_news).
    { apply (in_sublist r kw all_news); [|apply filter_sublist].
      apply (in_sublist r dd kw Hr). apply remove_similar_titles_sublist. }
    apply in_seq in Hall. unfold h1. rewrite length_app. lia. }
  rewrite (classify_news_failure net dd h2 Hlive (Hfail _)). cbn [fst snd].
  rewrite summarize_news_length, length_seq.
  split; [reflexivity|]. split; [reflexivity|]. split; [reflexivity|].
  intros res Hres. rewrite summarize_news_spec in Hres. cbn [fst] in Hres.
  apply in_map_iff in Hres as ([i r'] & <- & Hin). cbn [fst snd].
  apply enumerate_from_in in Hin. apply in_seq in Hin.
  destruct (summarize_item_carries rt net i
              ((h2 ++ map (fun r => set_classification fallback_classification (h2 !!! r)) dd)
                 !!! r')) as (_ & _ & -> & _).
  rewrite lookup_total_app_r by lia.
  destruct (lookup_lt_is_Some_2 dd (r' - length h2)) as [r Hr]; [lia|].
  rewrite (lookup_total_map _ _ _ _ Hr). reflexivity.
Qed.

Lemma pipeline_fail_open_witness :
  let net := mkNetwork (naver_get Sample.net_up) (classifier_post Sample.net_down)
               (summarizer_post Sample.net_down) in
  let r := (run_pipeline Sample.rt net [py "크래프톤"] []).1 in
  (forall titles, classifier_failure (classifier_post net titles))
  /\ after_deduplication r = Some 1
  /\ final_summaries r = 1
  /\ length (results r) = 1.
Proof.
  intros net r.
  assert (Hfail : forall titles, classifier_failure (classifier_post net titles))
    by (intros titles; simpl; discriminate).
  assert (Hdd : after_deduplication r = Some 1) by (vm_compute; reflexivity).
  destruct (pipeline_fail_open Sample.rt net [py "크래프톤"] [] Hfail) as (_ & H2 & H3 & _).
  fold r in H2, H3. rewrite Hdd in H2, H3.
  split; [exact Hfail|]. split; [exact Hdd|]. split; [exact H2 | exact H3].
Defined.
